(** * weather.py: the fetch-and-format pipeline of the weather tool server

    A shallow embedding of [src/weather.py]: the fetcher
    [get_weather_data], the alert formatter [format_alert] and the two
    tool operations [get_alerts] and [get_forecast], followed by the
    properties of the specification that concern them.

    Python objects decoded from JSON are the inductive type [json];
    Python exceptions are the type [exn]; code that talks to the network
    runs in the monad [M], which threads the list of GET requests handed
    to the HTTP client and carries either an exception or a value. *)

From Stdlib Require Import String Ascii List ZArith Bool Lia.
From Stdlib Require Import PrimFloat DecimalString.
Import ListNotations.
Local Open Scope list_scope.
Local Open Scope string_scope.
#[local] Set Warnings "-register-all".

(** ** Python values *)

(** What [response.json()] can return: [None], [bool], [int], [float],
    [str], [list] and [dict].  A [str] is the sequence of its
    characters, a [float] a binary64 number.  A [dict] is the list of
    its items in insertion order; its keys are strings and [dict_lookup]
    returns the item found first. *)
Inductive json : Type :=
| JNull
| JBool (b : bool)
| JInt (n : Z)
| JFloat (x : float)
| JStr (s : string)
| JArr (items : list json)
| JObj (members : list (string * json)).

(** The exceptions the modelled code can meet.  [CancelledError] derives
    from [BaseException] only, the others from [Exception].
    [SliceKeyError] is what subscripting a [dict] with a slice raises
    ([TypeError: unhashable type] before Python 3.12, [KeyError] from
    3.12 on). *)
Inductive exn : Type :=
| KeyError (key : string)
| TypeError
| AttributeError
| SliceKeyError
| HTTPStatusError (status : Z)
| TimeoutException
| TransportError
| JSONDecodeError
| CancelledError.

(** [isinstance(e, Exception)] *)
Definition is_Exception (e : exn) : bool :=
  match e with
  | CancelledError => false
  | _ => true
  end.

Definition result (A : Type) : Type := (exn + A)%type.

Definition nl : string := String (ascii_of_nat 10) EmptyString.

(** [sep.join(parts)] *)
Fixpoint join (sep : string) (parts : list string) : string :=
  match parts with
  | [] => ""
  | [p] => p
  | p :: rest => p ++ sep ++ join sep rest
  end.

Fixpoint dict_lookup (k : string) (d : list (string * json)) : option json :=
  match d with
  | [] => None
  | (k', v) :: rest => if String.eqb k k' then Some v else dict_lookup k rest
  end.

(** [bool(v)]: the test behind [not v] and [if v]. *)
Definition truthy (v : json) : bool :=
  match v with
  | JNull => false
  | JBool b => b
  | JInt n => negb (Z.eqb n 0)
  | JFloat x => negb (PrimFloat.eqb x PrimFloat.zero)
  | JStr s => negb (String.eqb s "")
  | JArr items => match items with [] => false | _ => true end
  | JObj members => match members with [] => false | _ => true end
  end.

(** [v[k]] for a string [k]. *)
Definition getitem (v : json) (k : string) : result json :=
  match v with
  | JObj d => match dict_lookup k d with
              | Some x => inr x
              | None => inl (KeyError k)
              end
  | _ => inl TypeError
  end.

(** [v.get(k, default)]: only a [dict] has the method. *)
Definition dict_get (v : json) (k : string) (default : json) : result json :=
  match v with
  | JObj d => match dict_lookup k d with
              | Some x => inr x
              | None => inr default
              end
  | _ => inl AttributeError
  end.

Definition is_substring (k s : string) : bool :=
  match String.index 0 k s with
  | Some _ => true
  | None => false
  end.

Definition json_is_str (k : string) (v : json) : bool :=
  match v with
  | JStr s => String.eqb k s
  | _ => false
  end.

(** [k in v] for a string [k]: key test on a [dict], element test on a
    [list], substring test on a [str]; the other types are not
    containers. *)
Definition contains (k : string) (v : json) : result bool :=
  match v with
  | JObj d => inr (match dict_lookup k d with Some _ => true | None => false end)
  | JArr items => inr (existsb (json_is_str k) items)
  | JStr s => inr (is_substring k s)
  | _ => inl TypeError
  end.

Definition chars (s : string) : list json :=
  map (fun c => JStr (String c EmptyString)) (list_ascii_of_string s).

(** [iter(v)]: what a [for] loop or a comprehension walks through. *)
Definition py_iter (v : json) : result (list json) :=
  match v with
  | JArr items => inr items
  | JStr s => inr (chars s)
  | JObj d => inr (map (fun kv => JStr (fst kv)) d)
  | _ => inl TypeError
  end.

(** [v[:n]] *)
Definition slice_to (n : nat) (v : json) : result json :=
  match v with
  | JArr items => inr (JArr (firstn n items))
  | JStr s => inr (JStr (String.substring 0 n s))
  | JObj _ => inl SliceKeyError
  | _ => inl TypeError
  end.

(** [str(n)] for an [int]: the decimal digits, with a minus sign when
    negative. *)
Definition int_str (n : Z) : string := NilZero.string_of_int (Z.to_int n).

(** Left-to-right traversal that stops at the first exception, as a list
    comprehension or a loop body with [append] does. *)
Fixpoint map_result {A B : Type} (f : A -> result B) (l : list A) : result (list B) :=
  match l with
  | [] => inr []
  | a :: rest =>
      match f a with
      | inl e => inl e
      | inr b => match map_result f rest with
                 | inl e => inl e
                 | inr bs => inr (b :: bs)
                 end
      end
  end.

Definition bind_result {A B : Type} (r : result A) (k : A -> result B) : result B :=
  match r with
  | inl e => inl e
  | inr a => k a
  end.

Declare Scope result_scope.
Delimit Scope result_scope with result.
Notation "x <- c ;; k" := (bind_result c (fun x => k))
  (at level 61, c at next level, right associativity) : result_scope.

(** ** HTTP client and the monad of the tool operations *)

Record request : Type := mkRequest {
  req_url : string;
  req_headers : list (string * string);
  req_timeout : Z
}.

(** The part of an [httpx.Response] the code looks at: the status code
    and what [response.json()] makes of the body ([None] when the body
    does not decode). *)
Record response : Type := mkResponse {
  status_code : Z;
  json_body : option json
}.

(** [response.is_success] *)
Definition is_success (r : response) : bool :=
  (200 <=? status_code r)%Z && (status_code r <=? 299)%Z.

(** What one [client.get] ends in: an exception raised by the client
    or a response. *)
Inductive outcome : Type :=
| Raises (e : exn)
| Responds (r : response).

(** The upstream: the outcome of a request, given the requests sent
    before it. *)
Definition network : Type := list request -> request -> outcome.

Definition M (A : Type) : Type := list request -> list request * result A.

Definition ret {A : Type} (a : A) : M A := fun h => (h, inr a).

Definition raise {A : Type} (e : exn) : M A := fun h => (h, inl e).

Definition bind {A B : Type} (c : M A) (k : A -> M B) : M B :=
  fun h =>
    match c h with
    | (h', inl e) => (h', inl e)
    | (h', inr a) => k a h'
    end.

(** [try: c  except Exception: handler] *)
Definition try_except_Exception {A : Type} (c : M A) (handler : M A) : M A :=
  fun h =>
    match c h with
    | (h', inl e) => if is_Exception e then handler h' else (h', inl e)
    | (h', inr a) => (h', inr a)
    end.

Definition lift {A : Type} (r : result A) : M A := fun h => (h, r).

Declare Scope io_scope.
Delimit Scope io_scope with io.
Notation "x <- c ;; k" := (bind c (fun x => k))
  (at level 61, c at next level, right associativity) : io_scope.

(** The literal the blocks are joined with. *)
Definition block_separator : string := nl ++ "---" ++ nl.

Definition NWS_API_BASE : string := "https://api.weather.gov".
Definition USER_AGENT : string := "weather-app/1.0".

Definition headers : list (string * string) :=
  [("User-Agent", USER_AGENT); ("Accept", "application/geo+json")].

(** The request [get_weather_data] sends for the URL [u]. *)
Definition request_for (u : string) : request := mkRequest u headers 35.

(** ** Views used to state the properties *)

(** The [properties] mapping of an alert feature, when the feature is a
    mapping that holds one. *)
Definition feature_properties (feature : json) : option (list (string * json)) :=
  match feature with
  | JObj m => match dict_lookup "properties" m with
              | Some (JObj props) => Some props
              | _ => None
              end
  | _ => None
  end.

(** A mapping without a [properties] key. *)
Definition lacks_properties (feature : json) : bool :=
  match feature with
  | JObj m => match dict_lookup "properties" m with
              | None => true
              | Some _ => false
              end
  | _ => false
  end.

(** The required fields of a forecast period. *)
Record period_view : Type := mkPeriodView {
  pv_name : json;
  pv_temperature : json;
  pv_temperatureUnit : json;
  pv_windSpeed : json;
  pv_windDirection : json;
  pv_precipitation : json;
  pv_detailedForecast : json
}.

(** The fields of a period mapping that holds all of them. *)
Definition view_period (period : json) : option period_view :=
  match period with
  | JObj m =>
      match dict_lookup "name" m, dict_lookup "temperature" m,
            dict_lookup "temperatureUnit" m, dict_lookup "windSpeed" m,
            dict_lookup "windDirection" m,
            dict_lookup "probabilityOfPrecipitation" m,
            dict_lookup "detailedForecast" m with
      | Some name, Some temperature, Some unit_, Some speed, Some direction,
        Some (JObj pop), Some detailed =>
          match dict_lookup "value" pop with
          | Some value =>
              Some (mkPeriodView name temperature unit_ speed direction value detailed)
          | None => None
          end
      | _, _, _, _, _, _, _ => None
      end
  | _ => None
  end.

(** A period that is a mapping and whose [probabilityOfPrecipitation],
    when present, is a mapping too. *)
Definition period_mapping (period : json) : bool :=
  match period with
  | JObj m => match dict_lookup "probabilityOfPrecipitation" m with
              | Some (JObj _) | None => true
              | Some _ => false
              end
  | _ => false
  end.

(** The ways a fetch fails that the specification names. *)
Inductive fetch_fault : outcome -> Prop :=
| fault_timeout : fetch_fault (Raises TimeoutException)
| fault_transport : fetch_fault (Raises TransportError)
| fault_status : forall r, is_success r = false -> fetch_fault (Responds r)
| fault_decode : forall r, json_body r = None -> fetch_fault (Responds r).

(** ** Fixtures

    Concrete payloads and upstreams on which the statements below are
    exercised. *)

Definition fixture_float_str (x : float) : string :=
  if PrimFloat.eqb x 47.5%float then "47.5"
  else if PrimFloat.eqb x (-122.25)%float then "-122.25"
  else "0.0".

Definition fixture_str_repr (s : string) : string := "'" ++ s ++ "'".

Fixpoint fixture_lookup (u : string) (table : list (string * outcome)) : outcome :=
  match table with
  | [] => Raises TransportError
  | (u', o) :: rest => if String.eqb u u' then o else fixture_lookup u rest
  end.

(** An upstream that answers by URL, whatever was sent before. *)
Definition fixture_net (table : list (string * outcome)) : network :=
  fun _ rq => fixture_lookup (req_url rq) table.

Definition ok_json (v : json) : outcome := Responds (mkResponse 200 (Some v)).

Definition fixture_alerts_url : string :=
  "https://api.weather.gov/alerts/active/area/WA".

Definition fixture_points_url : string :=
  "https://api.weather.gov/points/47.5,-122.25".

Definition fixture_forecast_url : string :=
  "https://api.weather.gov/gridpoints/SEW/124,67/forecast".

Definition fixture_props_full : list (string * json) :=
  [("event", JStr "Flood Warning");
   ("areaDesc", JStr "King, WA");
   ("severity", JStr "Severe");
   ("description", JStr "River above flood stage.");
   ("instruction", JStr "Move to higher ground.")].

Definition fixture_props_sparse : list (string * json) :=
  [("event", JStr "Wind Advisory"); ("instruction", JNull)].

Definition fixture_feature_full : json :=
  JObj [("type", JStr "Feature"); ("properties", JObj fixture_props_full)].

Definition fixture_feature_sparse : json :=
  JObj [("properties", JObj fixture_props_sparse)].

Definition fixture_feature_bare : json := JObj [("type", JStr "Feature")].

Definition fixture_alerts (features : list json) : json :=
  JObj [("type", JStr "FeatureCollection"); ("features", JArr features)].

Definition fixture_points : json :=
  JObj [("properties", JObj [("forecast", JStr fixture_forecast_url)])].

Definition fixture_period (n : Z) : json :=
  JObj [("number", JInt n);
        ("name", JStr ("Period " ++ int_str n));
        ("temperature", JInt (50 + n));
        ("temperatureUnit", JStr "F");
        ("probabilityOfPrecipitation",
         JObj [("unitCode", JStr "wmoUnit:percent"); ("value", JInt (10 * n))]);
        ("windSpeed", JStr "5 to 10 mph");
        ("windDirection", JStr "SW");
        ("detailedForecast", JStr "Mostly sunny.")].

(** A period without its [detailedForecast]. *)
Definition fixture_period_short (n : Z) : json :=
  JObj [("name", JStr ("Period " ++ int_str n));
        ("temperature", JInt (50 + n));
        ("temperatureUnit", JStr "F");
        ("probabilityOfPrecipitation", JObj [("value", JNull)]);
        ("windSpeed", JStr "5 mph");
        ("windDirection", JStr "N")].

(** A period whose [probabilityOfPrecipitation] is [null]. *)
Definition fixture_period_null_pop : json :=
  JObj [("name", JStr "Tonight");
        ("temperature", JInt 41);
        ("temperatureUnit", JStr "F");
        ("probabilityOfPrecipitation", JNull);
        ("windSpeed", JStr "5 mph");
        ("windDirection", JStr "N");
        ("detailedForecast", JStr "Clear.")].

Definition fixture_forecast_props (periods : list json) : json :=
  JObj [("units", JStr "us"); ("periods", JArr periods)].

Definition fixture_forecast (periods : list json) : json :=
  JObj [("properties", fixture_forecast_props periods)].

Definition fixture_nine_periods : list json :=
  map fixture_period [1; 2; 3; 4; 5; 6; 7; 8; 9]%Z.

Definition fixture_view (n : Z) : period_view :=
  mkPeriodView (JStr ("Period " ++ int_str n)) (JInt (50 + n)) (JStr "F")
               (JStr "5 to 10 mph") (JStr "SW") (JInt (10 * n))
               (JStr "Mostly sunny.").

Definition fixture_alerts_net (o : outcome) : network :=
  fixture_net [(fixture_alerts_url, o)].

Definition fixture_forecast_net (points forecast : outcome) : network :=
  fixture_net [(fixture_points_url, points); (fixture_forecast_url, forecast)].

Section Weather.

(** [str(x)] for a [float] and [repr(s)] for a [str] are taken from the
    Python runtime. *)
Variable float_str : float -> string.
Variable str_repr : string -> string.

(** [repr(v)] *)
Fixpoint py_repr (v : json) : string :=
  match v with
  | JNull => "None"
  | JBool true => "True"
  | JBool false => "False"
  | JInt n => int_str n
  | JFloat x => float_str x
  | JStr s => str_repr s
  | JArr items => "[" ++ join ", " (map py_repr items) ++ "]"
  | JObj d =>
      "{" ++ join ", "
               (map (fun kv => match kv with
                               | (k, x) => str_repr k ++ ": " ++ py_repr x
                               end) d)
          ++ "}"
  end.

(** [str(v)], which is what a replacement field [{v}] of an f-string
    inserts. *)
Definition py_str (v : json) : string :=
  match v with
  | JStr s => s
  | _ => py_repr v
  end.

Variable net : network.

(** [client.get(url, headers=headers, timeout=timeout)]: a [url] that
    is not a [str] is refused with [TypeError] before anything is
    sent. *)
Definition client_get (url : json) (hdrs : list (string * string))
           (timeout : Z) : M response :=
  match url with
  | JStr u =>
      fun h =>
        let rq := mkRequest u hdrs timeout in
        match net h rq with
        | Raises e => ((h ++ [rq])%list, inl e)
        | Responds r => ((h ++ [rq])%list, inr r)
        end
  | _ => raise TypeError
  end.

(** [response.raise_for_status()] *)
Definition raise_for_status (r : response) : M unit :=
  if is_success r
  then ret tt
  else raise (HTTPStatusError (status_code r)).

(** [response.json()] *)
Definition response_json (r : response) : M json :=
  match json_body r with
  | Some v => ret v
  | None => raise JSONDecodeError
  end.

Definition get_weather_data (url : json) : M json :=
  try_except_Exception
    (response <- client_get url headers 35 ;;
     _ <- raise_for_status response ;;
     response_json response)%io
    (ret JNull).

Definition format_alert (feature : json) : result string :=
  (properties <- getitem feature "properties" ;;
   event <- dict_get properties "event" (JStr "Unknown") ;;
   areaDesc <- dict_get properties "areaDesc" (JStr "Unknown") ;;
   severity <- dict_get properties "severity" (JStr "Unknown") ;;
   description <- dict_get properties "description" (JStr "No Description") ;;
   instruction <- dict_get properties "instruction" (JStr "No Specific Instruction") ;;
   inr (nl ++ "Event: " ++ py_str event ++ nl
           ++ "Area: " ++ py_str areaDesc ++ nl
           ++ "Severity: " ++ py_str severity ++ nl
           ++ "Description: " ++ py_str description ++ nl
           ++ "Instruction: " ++ py_str instruction ++ nl))%result.

(** The part of [get_alerts] after the fetch. *)
Definition alerts_text (data : json) : result string :=
  let missing :=
    if negb (truthy data) then inr true
    else (present <- contains "features" data ;; inr (negb present))%result in
  (m <- missing ;;
   if (m : bool) then inr "Unable to fetch alerts!"
   else
     features <- getitem data "features" ;;
     if negb (truthy features) then inr "No active alerts for this state"
     else
       items <- py_iter features ;;
       alerts <- map_result format_alert items ;;
       inr (join block_separator alerts))%result.

Definition alerts_url (state : string) : string :=
  NWS_API_BASE ++ "/alerts/active/area/" ++ state.

Definition get_alerts (state : string) : M string :=
  (let url := alerts_url state in
   data <- get_weather_data (JStr url) ;;
   lift (alerts_text data))%io.

Definition format_period (period : json) : result string :=
  (name <- getitem period "name" ;;
   temperature <- getitem period "temperature" ;;
   temperatureUnit <- getitem period "temperatureUnit" ;;
   windSpeed <- getitem period "windSpeed" ;;
   windDirection <- getitem period "windDirection" ;;
   pop <- getitem period "probabilityOfPrecipitation" ;;
   value <- getitem pop "value" ;;
   detailedForecast <- getitem period "detailedForecast" ;;
   inr (nl ++ py_str name ++ ":" ++ nl
           ++ "Temperature: " ++ py_str temperature ++ " Degrees "
           ++ py_str temperatureUnit ++ nl
           ++ "Wind: " ++ py_str windSpeed ++ " " ++ py_str windDirection ++ nl
           ++ "Precipitation: " ++ py_str value ++ "%" ++ nl
           ++ "Detailed Forecast: " ++ py_str detailedForecast))%result.

(** The part of [get_forecast] after the second fetch. *)
Definition forecast_text (forecast_data : json) : result string :=
  if negb (truthy forecast_data) then inr "No Forecast Data Found"
  else
    (props <- getitem forecast_data "properties" ;;
     periods <- getitem props "periods" ;;
     first7 <- slice_to 7 periods ;;
     items <- py_iter first7 ;;
     forecasts <- map_result format_period items ;;
     inr (join block_separator forecasts))%result.

Definition points_url (latitude longitude : float) : string :=
  NWS_API_BASE ++ "/points/" ++ float_str latitude ++ "," ++ float_str longitude.

Definition forecast_url_of (points_data : json) : result json :=
  (props <- getitem points_data "properties" ;;
   getitem props "forecast")%result.

Definition get_forecast (latitude longitude : float) : M string :=
  (points_data <- get_weather_data (JStr (points_url latitude longitude)) ;;
   if negb (truthy points_data) then ret "No Data Found"
   else
     forecast_url <- lift (forecast_url_of points_data) ;;
     forecast_data <- get_weather_data forecast_url ;;
     lift (forecast_text forecast_data))%io.

(** ** inspect_weather_api.py *)

(** The exceptions of the inspection script: those of [exn] and the two
    that a subscript with an integer adds. *)
Inductive script_exn : Type :=
| Raised (e : exn)
| IndexError
| KeyErrorInt (key : Z).

Definition script_result (A : Type) : Type := (script_exn + A)%type.

Definition of_result {A : Type} (r : result A) : script_result A :=
  match r with
  | inl e => inl (Raised e)
  | inr a => inr a
  end.

Definition bind_script {A B : Type} (r : script_result A)
           (k : A -> script_result B) : script_result B :=
  match r with
  | inl e => inl e
  | inr a => k a
  end.

Declare Scope script_scope.
Delimit Scope script_scope with script.
Notation "x <- c ;; k" := (bind_script c (fun x => k))
  (at level 61, c at next level, right associativity) : script_scope.

(** [v[i]] for an integer [i] that is not negative: an element of a
    [list], a character of a [str], a key that a [dict] decoded from
    JSON never holds. *)
Definition getitem_index (v : json) (i : nat) : script_result json :=
  match v with
  | JArr items => match nth_error items i with
                  | Some x => inr x
                  | None => inl IndexError
                  end
  | JStr s => match String.get i s with
              | Some c => inr (JStr (String c EmptyString))
              | None => inl IndexError
              end
  | JObj _ => inl (KeyErrorInt (Z.of_nat i))
  | _ => inl (Raised TypeError)
  end.

(** [v.keys()] *)
Definition dict_keys (v : json) : script_result (list string) :=
  match v with
  | JObj d => inr (map fst d)
  | _ => inl (Raised AttributeError)
  end.

(** [str(d.keys())] *)
Definition dict_keys_str (keys : list string) : string :=
  "dict_keys([" ++ join ", " (map str_repr keys) ++ "])".

(** The request of the script: its own [User-Agent], and the client's
    default timeout of 5 seconds. *)
Definition sample_request : request :=
  mkRequest "https://api.weather.gov/alerts/active"
            [("User-Agent", "test@example.com")] 5.

(** What [sample] prints for the decoded payload [data]. *)
Definition sample_output (data : json) : script_result string :=
  (features <- of_result (getitem data "features") ;;
   first <- getitem_index features 0 ;;
   properties <- of_result (getitem first "properties") ;;
   keys <- dict_keys properties ;;
   inr (dict_keys_str keys ++ nl))%script.

(** [sample()]: the text written to standard output, or the exception
    the script ends with. *)
Definition sample : list request -> list request * script_result string :=
  fun h =>
    match client_get (JStr "https://api.weather.gov/alerts/active")
                     [("User-Agent", "test@example.com")] 5 h with
    | (h1, inl e) => (h1, inl (Raised e))
    | (h1, inr r) =>
        match response_json r h1 with
        | (h2, inl e) => (h2, inl (Raised e))
        | (h2, inr data) => (h2, sample_output data)
        end
    end.

(** The keys [get_forecast] subscripts with. *)
Definition forecast_keys : list string :=
  ["properties"; "forecast"; "periods"; "name"; "temperature";
   "temperatureUnit"; "windSpeed"; "windDirection";
   "probabilityOfPrecipitation"; "value"; "detailedForecast"].

(** ** Texts the properties are stated with *)

(** The text of one labeled field: the value found under [k], or the
    fallback when the key is absent. *)
Definition spec_field_text (props : list (string * json)) (k fallback : string) : string :=
  match dict_lookup k props with
  | Some v => py_str v
  | None => fallback
  end.

(** The block of an alert, line by line as the template has it. *)
Definition spec_alert_block (props : list (string * json)) : string :=
  "
Event: " ++ spec_field_text props "event" "Unknown" ++ "
Area: " ++ spec_field_text props "areaDesc" "Unknown" ++ "
Severity: " ++ spec_field_text props "severity" "Unknown" ++ "
Description: " ++ spec_field_text props "description" "No Description" ++ "
Instruction: " ++ spec_field_text props "instruction" "No Specific Instruction" ++ "
".

(** The block of a forecast period, line by line as the template has
    it. *)
Definition spec_forecast_block (v : period_view) : string :=
  "
" ++ py_str (pv_name v) ++ ":
Temperature: " ++ py_str (pv_temperature v) ++ " Degrees " ++ py_str (pv_temperatureUnit v) ++ "
Wind: " ++ py_str (pv_windSpeed v) ++ " " ++ py_str (pv_windDirection v) ++ "
Precipitation: " ++ py_str (pv_precipitation v) ++ "%
Detailed Forecast: " ++ py_str (pv_detailedForecast v).

(** The blocks in their order, with the separator line (a line feed,
    three hyphens, a line feed) between each two of them. *)
Fixpoint spec_joined (blocks : list string) : string :=
  match blocks with
  | [] => ""
  | [b] => b
  | b :: rest => b ++ "
---
" ++ spec_joined rest
  end.

(** ** The fetcher *)

Lemma get_weather_data_str (u : string) (h : list request) :
  get_weather_data (JStr u) h =
  ((h ++ [request_for u])%list,
   match net h (request_for u) with
   | Raises e => if is_Exception e then inr JNull else inl e
   | Responds r =>
       if is_success r
       then match json_body r with Some v => inr v | None => inr JNull end
       else inr JNull
   end).
Proof.
  unfold get_weather_data, try_except_Exception, bind, client_get, request_for.
  destruct (net h _) as [e | r]; simpl.
  - destruct (is_Exception e); reflexivity.
  - unfold raise_for_status.
    destruct (is_success r); simpl; [ | reflexivity ].
    unfold response_json. destruct (json_body r); reflexivity.
Qed.

Lemma get_weather_data_not_str (url : json) (h : list request) :
  (forall u, url <> JStr u) -> get_weather_data url h = (h, inr JNull).
Proof.
  intros Hu. destruct url; try reflexivity. exfalso. apply (Hu s). reflexivity.
Qed.

Lemma get_weather_data_fault (u : string) (h : list request) :
  fetch_fault (net h (request_for u)) ->
  snd (get_weather_data (JStr u) h) = inr JNull.
Proof.
  intros Hf. rewrite get_weather_data_str. simpl.
  inversion Hf as [He | He | r Hs Hr | r Hb Hr]; try reflexivity.
  - rewrite Hs. reflexivity.
  - rewrite Hb. destruct (is_success r); reflexivity.
Qed.

(** C3: whatever the URL, a timeout, a transport error, a status
    outside 200-299 or a body that does not decode makes
    [get_weather_data] return [None] and raise nothing; a [url] that is
    not a string does the same; as long as the client raises nothing
    outside [Exception] the call returns a value; and two failed calls
    return the same result, whatever their causes. *)
Theorem C3_fetcher_collapses_faults :
  (forall u h, fetch_fault (net h (request_for u)) ->
               snd (get_weather_data (JStr u) h) = inr JNull)
  /\ (forall url h, (forall u, url <> JStr u) ->
                    snd (get_weather_data url h) = inr JNull)
  /\ (forall u h,
        (forall e, net h (request_for u) = Raises e -> is_Exception e = true) ->
        exists v, snd (get_weather_data (JStr u) h) = inr v)
  /\ (forall u1 h1 u2 h2,
        fetch_fault (net h1 (request_for u1)) ->
        fetch_fault (net h2 (request_for u2)) ->
        snd (get_weather_data (JStr u1) h1) = snd (get_weather_data (JStr u2) h2)).
Proof.
  split; [ | split; [ | split ] ].
  - exact get_weather_data_fault.
  - intros url h Hu. rewrite get_weather_data_not_str by assumption. reflexivity.
  - intros u h He. rewrite get_weather_data_str. simpl.
    destruct (net h (request_for u)) as [e | r].
    + rewrite (He e eq_refl). eauto.
    + destruct (is_success r); [ destruct (json_body r) | ]; eauto.
  - intros u1 h1 u2 h2 H1 H2.
    rewrite (get_weather_data_fault u1 h1 H1).
    rewrite (get_weather_data_fault u2 h2 H2). reflexivity.
Qed.

(** ** get_alerts *)

Lemma get_alerts_run (state : string) (h : list request) (data : json) :
  snd (get_weather_data (JStr (alerts_url state)) h) = inr data ->
  snd (get_alerts state h) = alerts_text data.
Proof.
  unfold get_alerts, bind, lift.
  destruct (get_weather_data (JStr (alerts_url state)) h) as [h' [e | d]]; simpl.
  - discriminate.
  - intros H. injection H as ->. reflexivity.
Qed.

Lemma alerts_text_falsy (data : json) :
  truthy data = false -> alerts_text data = inr "Unable to fetch alerts!".
Proof.
  intros H. unfold alerts_text. rewrite H. reflexivity.
Qed.

Lemma alerts_text_no_features (d : list (string * json)) :
  dict_lookup "features" d = None ->
  alerts_text (JObj d) = inr "Unable to fetch alerts!".
Proof.
  intros H. unfold alerts_text.
  destruct (truthy (JObj d)); simpl; [ rewrite H | ]; reflexivity.
Qed.

Lemma dict_lookup_some_truthy (k : string) (d : list (string * json)) (v : json) :
  dict_lookup k d = Some v -> truthy (JObj d) = true.
Proof.
  destruct d; simpl; [ discriminate | reflexivity ].
Qed.

(** C4: when the alerts fetch returns [None], or a mapping without a
    [features] key, [get_alerts] returns "Unable to fetch alerts!". *)
Theorem C4_get_alerts_unable (state : string) (h : list request) (data : json) :
  snd (get_weather_data (JStr (alerts_url state)) h) = inr data ->
  data = JNull \/ (exists d, data = JObj d /\ dict_lookup "features" d = None) ->
  snd (get_alerts state h) = inr "Unable to fetch alerts!".
Proof.
  intros Hfetch Hdata. rewrite (get_alerts_run _ _ _ Hfetch).
  destruct Hdata as [-> | [d [-> Hd]]].
  - reflexivity.
  - apply alerts_text_no_features. exact Hd.
Qed.

(** C6: when the alerts fetch returns a mapping whose [features] is an
    empty sequence, [get_alerts] returns
    "No active alerts for this state". *)
Theorem C6_get_alerts_no_active (state : string) (h : list request)
        (d : list (string * json)) :
  snd (get_weather_data (JStr (alerts_url state)) h) = inr (JObj d) ->
  dict_lookup "features" d = Some (JArr []) ->
  snd (get_alerts state h) = inr "No active alerts for this state".
Proof.
  intros Hfetch Hd. rewrite (get_alerts_run _ _ _ Hfetch).
  unfold alerts_text. rewrite (dict_lookup_some_truthy _ _ _ Hd). simpl.
  rewrite Hd. reflexivity.
Qed.

(** ** Traversals *)

Lemma map_result_Forall2 {A B : Type} (f : A -> result B) (l : list A) (bs : list B) :
  Forall2 (fun a b => f a = inr b) l bs -> map_result f l = inr bs.
Proof.
  induction 1 as [ | a b l bs Hab _ IH ]; simpl.
  - reflexivity.
  - rewrite Hab, IH. reflexivity.
Qed.

Lemma map_result_Exists_fault {A B : Type} (f : A -> result B) (l : list A) :
  Exists (fun a => exists e, f a = inl e) l -> exists e, map_result f l = inl e.
Proof.
  induction 1 as [ a l [e He] | a l _ [e IH] ]; simpl.
  - rewrite He. eauto.
  - destruct (f a); [ eauto | ]. rewrite IH. eauto.
Qed.

(** The exception of a traversal is the exception of one of its
    elements. *)
Lemma map_result_fault_origin {A B : Type} (f : A -> result B) (l : list A) (e : exn) :
  map_result f l = inl e -> exists a, In a l /\ f a = inl e.
Proof.
  induction l as [ | a l IH ]; simpl.
  - discriminate.
  - destruct (f a) as [e' | b] eqn:Ha.
    + intros H. injection H as ->. eauto.
    + destruct (map_result f l) as [e' | bs]; [ | discriminate ].
      intros H. injection H as ->.
      destruct (IH eq_refl) as [x [Hin Hx]]. eauto.
Qed.

Lemma Forall2_length_eq {A B : Type} (R : A -> B -> Prop) (l : list A) (l' : list B) :
  Forall2 R l l' -> length l' = length l.
Proof.
  induction 1; simpl; congruence.
Qed.

Lemma join_block_separator (blocks : list string) :
  join block_separator blocks = spec_joined blocks.
Proof.
  induction blocks as [ | b rest IH ]; [ reflexivity | ].
  destruct rest as [ | b' rest ]; [ reflexivity | ].
  change (join block_separator (b :: b' :: rest))
    with (b ++ block_separator ++ join block_separator (b' :: rest)).
  rewrite IH. reflexivity.
Qed.

Lemma string_length_append (s1 s2 : string) :
  String.length (s1 ++ s2) = String.length s1 + String.length s2.
Proof.
  induction s1 as [ | c s1 IH ]; simpl; [ reflexivity | rewrite IH; reflexivity ].
Qed.

(** The joined text is as long as its blocks and one separator of five
    characters between each two. *)
Lemma spec_joined_length (blocks : list string) :
  String.length (spec_joined blocks) =
  list_sum (map String.length blocks) + 5 * (length blocks - 1).
Proof.
  induction blocks as [ | b rest IH ]; [ reflexivity | ].
  destruct rest as [ | b' rest ].
  - simpl. lia.
  - change (spec_joined (b :: b' :: rest))
      with (b ++ String (ascii_of_nat 10)
                   (String "-" (String "-" (String "-"
                      (String (ascii_of_nat 10) EmptyString))))
              ++ spec_joined (b' :: rest)).
    rewrite !string_length_append, IH. simpl. lia.
Qed.

(** ** format_alert *)

Lemma format_alert_block (feature : json) (props : list (string * json)) :
  feature_properties feature = Some props ->
  format_alert feature = inr (spec_alert_block props).
Proof.
  unfold feature_properties. destruct feature as [ | | | | | | m ]; try discriminate.
  destruct (dict_lookup "properties" m) as [ v | ] eqn:Hp; [ | discriminate ].
  destruct v; try discriminate. intros H. injection H as ->.
  unfold format_alert, getitem. rewrite Hp. cbn [bind_result dict_get].
  unfold spec_alert_block, spec_field_text.
  destruct (dict_lookup "event" props);
    destruct (dict_lookup "areaDesc" props);
    destruct (dict_lookup "severity" props);
    destruct (dict_lookup "description" props);
    destruct (dict_lookup "instruction" props); reflexivity.
Qed.

Lemma format_alert_no_properties (m : list (string * json)) :
  dict_lookup "properties" m = None ->
  format_alert (JObj m) = inl (KeyError "properties").
Proof.
  intros H. unfold format_alert, getitem. rewrite H. reflexivity.
Qed.

Lemma alerts_text_features (d : list (string * json)) (fs : list json) :
  dict_lookup "features" d = Some (JArr fs) ->
  fs <> [] ->
  alerts_text (JObj d) =
  bind_result (map_result format_alert fs) (fun alerts => inr (join block_separator alerts)).
Proof.
  intros Hd Hne. unfold alerts_text.
  rewrite (dict_lookup_some_truthy _ _ _ Hd). simpl. rewrite Hd. simpl.
  destruct fs; [ contradiction | reflexivity ].
Qed.

(** C2: when the alerts fetch returns a mapping whose [features] is a
    non-empty sequence of alert features (mappings with a [properties]
    mapping), [get_alerts] returns one block per feature, in order, with
    the separator line between each two, so that the text is as long as
    the blocks and five characters for every separator; a block is the
    five labeled lines, and the text of a field is the fallback when its
    key is absent from [properties] and the value's text when it is
    present. *)
Theorem C2_get_alerts_blocks (state : string) (h : list request)
        (d : list (string * json)) (fs : list json)
        (ps : list (list (string * json))) :
  snd (get_weather_data (JStr (alerts_url state)) h) = inr (JObj d) ->
  dict_lookup "features" d = Some (JArr fs) ->
  fs <> [] ->
  Forall2 (fun f props => feature_properties f = Some props) fs ps ->
  snd (get_alerts state h) = inr (spec_joined (map spec_alert_block ps))
  /\ length (map spec_alert_block ps) = length fs
  /\ String.length (spec_joined (map spec_alert_block ps)) =
     list_sum (map String.length (map spec_alert_block ps)) + 5 * (length fs - 1)
  /\ (forall props k fallback,
        dict_lookup k props = None -> spec_field_text props k fallback = fallback)
  /\ (forall props k fallback v,
        dict_lookup k props = Some v -> spec_field_text props k fallback = py_str v).
Proof.
  intros Hfetch Hd Hne Hfs.
  assert (Hlen : length (map spec_alert_block ps) = length fs)
    by (rewrite length_map; apply (Forall2_length_eq _ _ _ Hfs)).
  split; [ | split; [ | split; [ | split ] ] ].
  - rewrite (get_alerts_run _ _ _ Hfetch).
    rewrite (alerts_text_features _ _ Hd Hne).
    rewrite (map_result_Forall2 format_alert fs (map spec_alert_block ps)).
    + cbn [bind_result]. rewrite join_block_separator. reflexivity.
    + clear - Hfs. induction Hfs; simpl; constructor; auto using format_alert_block.
  - exact Hlen.
  - rewrite spec_joined_length, Hlen. reflexivity.
  - intros props k fallback H. unfold spec_field_text. rewrite H. reflexivity.
  - intros props k fallback v H. unfold spec_field_text. rewrite H. reflexivity.
Qed.

Lemma format_alert_cases (feature : json) :
  format_alert feature =
  match feature with
  | JObj m =>
      match dict_lookup "properties" m with
      | None => inl (KeyError "properties")
      | Some (JObj props) => inr (spec_alert_block props)
      | Some _ => inl AttributeError
      end
  | _ => inl TypeError
  end.
Proof.
  destruct feature as [ | | | | | | m ]; try reflexivity.
  destruct (dict_lookup "properties" m) as [ v | ] eqn:Hp.
  - destruct v as [ | | | | | | props ];
      try (unfold format_alert, getitem; rewrite Hp; reflexivity).
    apply format_alert_block. unfold feature_properties. rewrite Hp. reflexivity.
  - apply format_alert_no_properties. exact Hp.
Qed.

Lemma format_alert_fault_kind (feature : json) (e : exn) :
  format_alert feature = inl e ->
  e = TypeError \/ e = AttributeError \/ e = KeyError "properties".
Proof.
  rewrite format_alert_cases.
  destruct feature as [ | | | | | | m ]; try (intros H; injection H as <-; auto).
  destruct (dict_lookup "properties" m) as [ v | ]; [ | intros H; injection H as <-; auto ].
  destruct v; try discriminate; intros H; injection H as <-; auto.
Qed.

Lemma lacks_properties_fault (feature : json) :
  lacks_properties feature = true ->
  format_alert feature = inl (KeyError "properties").
Proof.
  destruct feature as [ | | | | | | m ]; simpl; try discriminate.
  destruct (dict_lookup "properties" m) eqn:H; [ discriminate | ].
  intros _. apply format_alert_no_properties. exact H.
Qed.

Lemma map_result_format_alert_prefix (pre : list json) (f : json) (post : list json) :
  Forall (fun g => feature_properties g <> None \/ lacks_properties g = true) pre ->
  lacks_properties f = true ->
  map_result format_alert (pre ++ f :: post)%list = inl (KeyError "properties").
Proof.
  intros Hpre Hf. induction Hpre as [ | g pre Hg _ IH ]; simpl.
  - rewrite (lacks_properties_fault _ Hf). reflexivity.
  - destruct Hg as [Hg | Hg].
    + destruct (feature_properties g) as [ props | ] eqn:Hp; [ | contradiction ].
      rewrite (format_alert_block _ _ Hp), IH. reflexivity.
    + rewrite (lacks_properties_fault _ Hg). reflexivity.
Qed.

(** C9, as the code has it: [format_alert] raises the [KeyError] of
    [properties] on every feature mapping that has no such key, and
    returns no block of fallback texts; [get_alerts] on a fetched
    mapping whose [features] is a list that contains such a feature
    returns no text but raises a [TypeError], an [AttributeError] or
    that [KeyError], and it raises that [KeyError] when every feature
    before the one without [properties] is a mapping that holds a
    [properties] mapping or lacks the key too. *)
Theorem C9_missing_properties_is_a_fault :
  (forall m, dict_lookup "properties" m = None ->
             format_alert (JObj m) = inl (KeyError "properties"))
  /\ (forall state h d fs,
        snd (get_weather_data (JStr (alerts_url state)) h) = inr (JObj d) ->
        dict_lookup "features" d = Some (JArr fs) ->
        Exists (fun f => lacks_properties f = true) fs ->
        exists e, snd (get_alerts state h) = inl e
                  /\ (e = TypeError \/ e = AttributeError \/ e = KeyError "properties"))
  /\ (forall state h d pre f post,
        snd (get_weather_data (JStr (alerts_url state)) h) = inr (JObj d) ->
        dict_lookup "features" d = Some (JArr (pre ++ f :: post)%list) ->
        lacks_properties f = true ->
        Forall (fun g => feature_properties g <> None \/ lacks_properties g = true) pre ->
        snd (get_alerts state h) = inl (KeyError "properties")).
Proof.
  split; [ exact format_alert_no_properties | split ].
  - intros state h d fs Hfetch Hd Hex.
    rewrite (get_alerts_run _ _ _ Hfetch).
    assert (Hne : fs <> []) by (intros ->; inversion Hex).
    rewrite (alerts_text_features _ _ Hd Hne).
    destruct (map_result_Exists_fault format_alert fs) as [e He].
    + eapply Exists_impl; [ | exact Hex ].
      intros f Hf. exists (KeyError "properties"). apply lacks_properties_fault. exact Hf.
    + exists e. rewrite He. split; [ reflexivity | ].
      destruct (map_result_fault_origin _ _ _ He) as [f [_ Hf]].
      apply (format_alert_fault_kind _ _ Hf).
  - intros state h d pre f post Hfetch Hd Hf Hpre.
    rewrite (get_alerts_run _ _ _ Hfetch).
    assert (Hne : (pre ++ f :: post)%list <> []) by (destruct pre; discriminate).
    rewrite (alerts_text_features _ _ Hd Hne).
    rewrite (map_result_format_alert_prefix _ _ _ Hpre Hf). reflexivity.
Qed.

(** ** get_forecast *)

Lemma getitem_ok_truthy (v : json) (k : string) (x : json) :
  getitem v k = inr x -> truthy v = true.
Proof.
  destruct v as [ | | | | | | d ]; simpl; try discriminate.
  destruct d; simpl; [ discriminate | reflexivity ].
Qed.

Lemma forecast_url_truthy (points : json) (u : json) :
  forecast_url_of points = inr u -> truthy points = true.
Proof.
  unfold forecast_url_of.
  destruct (getitem points "properties") as [ e | props ] eqn:H; simpl.
  - discriminate.
  - intros _. apply (getitem_ok_truthy _ _ _ H).
Qed.

Lemma get_forecast_points_falsy (latitude longitude : float) (h h1 : list request)
      (points : json) :
  get_weather_data (JStr (points_url latitude longitude)) h = (h1, inr points) ->
  truthy points = false ->
  get_forecast latitude longitude h = (h1, inr "No Data Found").
Proof.
  intros Hfetch Hfalsy. unfold get_forecast, bind.
  rewrite Hfetch, Hfalsy. reflexivity.
Qed.

Lemma get_forecast_no_url (latitude longitude : float) (h h1 : list request)
      (points : json) (e : exn) :
  get_weather_data (JStr (points_url latitude longitude)) h = (h1, inr points) ->
  truthy points = true ->
  forecast_url_of points = inl e ->
  get_forecast latitude longitude h = (h1, inl e).
Proof.
  intros Hfetch Htruthy Hurl. unfold get_forecast, bind, lift.
  rewrite Hfetch, Htruthy, Hurl. reflexivity.
Qed.

Lemma get_forecast_second (latitude longitude : float) (h h1 : list request)
      (points u : json) :
  get_weather_data (JStr (points_url latitude longitude)) h = (h1, inr points) ->
  forecast_url_of points = inr u ->
  snd (get_forecast latitude longitude h) =
  bind_result (snd (get_weather_data u h1)) forecast_text.
Proof.
  intros Hfetch Hurl. unfold get_forecast, bind, lift.
  rewrite Hfetch, (forecast_url_truthy _ _ Hurl), Hurl. simpl.
  destruct (get_weather_data u h1) as [h2 [e | fdata]]; reflexivity.
Qed.

Lemma forecast_text_periods (fdata props : json) (ps : list json) :
  getitem fdata "properties" = inr props ->
  getitem props "periods" = inr (JArr ps) ->
  forecast_text fdata =
  bind_result (map_result format_period (firstn 7 ps))
              (fun forecasts => inr (join block_separator forecasts)).
Proof.
  intros Hprops Hperiods. unfold forecast_text.
  rewrite (getitem_ok_truthy _ _ _ Hprops), Hprops. simpl.
  rewrite Hperiods. reflexivity.
Qed.

Ltac break_lookups H :=
  repeat match type of H with
         | context [match ?x with _ => _ end] => destruct x eqn:?; try discriminate H
         end.

Lemma format_period_view (period : json) (v : period_view) :
  view_period period = Some v ->
  format_period period = inr (spec_forecast_block v).
Proof.
  destruct period as [ | | | | | | m ]; try discriminate.
  unfold view_period. intros H. break_lookups H.
  injection H as <-. subst. unfold format_period, getitem.
  repeat match goal with
         | E : dict_lookup _ _ = Some _ |- _ => rewrite E; clear E; cbn [bind_result]
         end.
  reflexivity.
Qed.

Ltac period_fault :=
  intros; eexists;
  split; [ reflexivity
         | split; [ first [ left; reflexivity | right; eexists; reflexivity ]
                  | intros; first [ discriminate | eexists; reflexivity ] ] ].

Lemma format_period_incomplete (period : json) :
  view_period period = None ->
  exists e, format_period period = inl e
            /\ (e = TypeError \/ exists k, e = KeyError k)
            /\ (period_mapping period = true -> exists k, e = KeyError k).
Proof.
  destruct period as [ | | | | | | m ]; try solve [ period_fault ].
  unfold view_period, format_period, period_mapping, getitem, bind_result.
  destruct (dict_lookup "name" m); cbv beta iota; [ | period_fault ].
  destruct (dict_lookup "temperature" m); cbv beta iota; [ | period_fault ].
  destruct (dict_lookup "temperatureUnit" m); cbv beta iota; [ | period_fault ].
  destruct (dict_lookup "windSpeed" m); cbv beta iota; [ | period_fault ].
  destruct (dict_lookup "windDirection" m); cbv beta iota; [ | period_fault ].
  destruct (dict_lookup "probabilityOfPrecipitation" m) as [ pop | ];
    cbv beta iota; [ | period_fault ].
  destruct pop as [ | | | | | | popm ]; cbv beta iota; try solve [ period_fault ].
  destruct (dict_lookup "value" popm); cbv beta iota; [ | period_fault ].
  destruct (dict_lookup "detailedForecast" m); cbv beta iota;
    [ discriminate | period_fault ].
Qed.

Lemma map_result_format_period_fault (ps : list json) :
  Exists (fun p => view_period p = None) ps ->
  exists e, map_result format_period ps = inl e
            /\ (e = TypeError \/ exists k, e = KeyError k)
            /\ (Forall (fun p => period_mapping p = true) ps -> exists k, e = KeyError k).
Proof.
  intros Hex.
  destruct (map_result_Exists_fault format_period ps) as [e He].
  - eapply Exists_impl; [ | exact Hex ].
    intros p Hp. destruct (format_period_incomplete p Hp) as [e [He _]]. eauto.
  - exists e. split; [ exact He | ].
    destruct (map_result_fault_origin _ _ _ He) as [p [Hin Hp]].
    destruct (view_period p) as [ v | ] eqn:Hv.
    + rewrite (format_period_view _ _ Hv) in Hp. discriminate.
    + destruct (format_period_incomplete p Hv) as [e' [He' [Hkind Hkey]]].
      assert (e' = e) by congruence. subst e'. split; [ exact Hkind | ].
      intros Hall. apply Hkey. rewrite Forall_forall in Hall. auto.
Qed.

(** C1: when the points fetch returns a payload with a
    [properties.forecast], the fetch of that URL returns a payload whose
    [properties.periods] is a sequence of [N] periods, and the first
    [min(N,7)] of them hold all the required fields (as they do when all
    [N] do), [get_forecast] returns exactly [min(N,7)] blocks, in the
    order of the sequence, with the separator line between each two, so
    that the text is as long as the blocks and five characters for every
    separator; a block holds the text of the period's name, temperature
    and unit, wind speed and direction, precipitation value followed by
    a percent sign, and detailed forecast, and the text of a string is
    the string itself. *)
Theorem C1_get_forecast_blocks (latitude longitude : float) (h h1 : list request)
        (points u fdata props : json) (ps : list json) (views : list period_view) :
  get_weather_data (JStr (points_url latitude longitude)) h = (h1, inr points) ->
  forecast_url_of points = inr u ->
  snd (get_weather_data u h1) = inr fdata ->
  getitem fdata "properties" = inr props ->
  getitem props "periods" = inr (JArr ps) ->
  Forall2 (fun p v => view_period p = Some v) (firstn 7 ps) views ->
  snd (get_forecast latitude longitude h) =
    inr (spec_joined (map spec_forecast_block views))
  /\ length (map spec_forecast_block views) = Nat.min (length ps) 7
  /\ String.length (spec_joined (map spec_forecast_block views)) =
     list_sum (map String.length (map spec_forecast_block views))
     + 5 * (Nat.min (length ps) 7 - 1)
  /\ (forall s, py_str (JStr s) = s).
Proof.
  intros Hpoints Hurl Hfetch Hprops Hperiods Hviews.
  assert (Hlen : length (map spec_forecast_block views) = Nat.min (length ps) 7).
  { rewrite length_map, (Forall2_length_eq _ _ _ Hviews), length_firstn.
    apply Nat.min_comm. }
  split; [ | split; [ | split ] ].
  - rewrite (get_forecast_second _ _ _ _ _ _ Hpoints Hurl), Hfetch. simpl.
    rewrite (forecast_text_periods _ _ _ Hprops Hperiods).
    rewrite (map_result_Forall2 format_period (firstn 7 ps) (map spec_forecast_block views)).
    + cbn [bind_result]. rewrite join_block_separator. reflexivity.
    + clear - Hviews. induction Hviews; simpl; constructor; auto using format_period_view.
  - exact Hlen.
  - rewrite spec_joined_length, Hlen. reflexivity.
  - reflexivity.
Qed.

(** C5: when the points fetch returns [None], [get_forecast] returns
    "No Data Found" and the only request it has sent is the one for the
    points URL; when the points fetch returns a payload with a
    [properties.forecast] and the fetch of that URL returns [None],
    [get_forecast] returns "No Forecast Data Found". *)
Theorem C5_get_forecast_fetch_failures (latitude longitude : float) (h : list request) :
  (snd (get_weather_data (JStr (points_url latitude longitude)) h) = inr JNull ->
   get_forecast latitude longitude h =
     ((h ++ [request_for (points_url latitude longitude)])%list, inr "No Data Found"))
  /\ (forall h1 points u,
        get_weather_data (JStr (points_url latitude longitude)) h = (h1, inr points) ->
        forecast_url_of points = inr u ->
        snd (get_weather_data u h1) = inr JNull ->
        snd (get_forecast latitude longitude h) = inr "No Forecast Data Found").
Proof.
  split.
  - intros Hfetch. apply (get_forecast_points_falsy _ _ _ _ JNull); [ | reflexivity ].
    rewrite get_weather_data_str in *. simpl in Hfetch. rewrite Hfetch. reflexivity.
  - intros h1 points u Hpoints Hurl Hfetch.
    rewrite (get_forecast_second _ _ _ _ _ _ Hpoints Hurl), Hfetch. reflexivity.
Qed.

(** C7, as the code has it: for a points payload without a
    [properties.forecast], [get_forecast] returns "No Data Found" when
    the payload is falsy, and when it is truthy returns none of the
    fixed texts but raises the exception of the lookup that fails: the
    [KeyError] of [properties] when the payload is a mapping without
    that key, the [KeyError] of [forecast] when its [properties] is a
    mapping without that key, a [TypeError] when the payload or its
    [properties] is no mapping.  When [properties.periods] of the
    forecast payload is a list and one of its first [min(N,7)] periods
    does not hold all the required fields, [get_forecast] raises a
    [KeyError] or a [TypeError], and a [KeyError] when each of those
    periods is a mapping whose [probabilityOfPrecipitation], where
    present, is a mapping. *)
Theorem C7_missing_required_field_faults (latitude longitude : float)
        (h h1 : list request) (points : json) :
  get_weather_data (JStr (points_url latitude longitude)) h = (h1, inr points) ->
  (truthy points = false ->
   snd (get_forecast latitude longitude h) = inr "No Data Found")
  /\ (forall e, truthy points = true -> forecast_url_of points = inl e ->
                snd (get_forecast latitude longitude h) = inl e)
  /\ (forall d, points = JObj d -> d <> [] ->
                dict_lookup "properties" d = None ->
                snd (get_forecast latitude longitude h) = inl (KeyError "properties"))
  /\ (forall d pd, points = JObj d ->
                   dict_lookup "properties" d = Some (JObj pd) ->
                   dict_lookup "forecast" pd = None ->
                   snd (get_forecast latitude longitude h) = inl (KeyError "forecast"))
  /\ (truthy points = true -> (forall d, points <> JObj d) ->
      snd (get_forecast latitude longitude h) = inl TypeError)
  /\ (forall d v, points = JObj d ->
                  dict_lookup "properties" d = Some v ->
                  (forall pd, v <> JObj pd) ->
                  snd (get_forecast latitude longitude h) = inl TypeError)
  /\ (forall u fdata props ps,
        forecast_url_of points = inr u ->
        snd (get_weather_data u h1) = inr fdata ->
        getitem fdata "properties" = inr props ->
        getitem props "periods" = inr (JArr ps) ->
        Exists (fun p => view_period p = None) (firstn 7 ps) ->
        exists e, snd (get_forecast latitude longitude h) = inl e
                  /\ (e = TypeError \/ exists k, e = KeyError k)
                  /\ (Forall (fun p => period_mapping p = true) (firstn 7 ps) ->
                      exists k, e = KeyError k)).
Proof.
  intros Hpoints.
  assert (Hraise : forall e, truthy points = true -> forecast_url_of points = inl e ->
                             snd (get_forecast latitude longitude h) = inl e).
  { intros e Htruthy Hurl.
    rewrite (get_forecast_no_url _ _ _ _ _ _ Hpoints Htruthy Hurl). reflexivity. }
  split; [ | split; [ exact Hraise | split; [ | split; [ | split; [ | split ] ] ] ] ].
  - intros Hfalsy. rewrite (get_forecast_points_falsy _ _ _ _ _ Hpoints Hfalsy). reflexivity.
  - intros d -> Hne Hp. apply Hraise.
    + destruct d; [ contradiction | reflexivity ].
    + unfold forecast_url_of, getitem. rewrite Hp. reflexivity.
  - intros d pd -> Hp Hf. apply Hraise.
    + apply (dict_lookup_some_truthy _ _ _ Hp).
    + unfold forecast_url_of, getitem. rewrite Hp. cbn [bind_result]. rewrite Hf. reflexivity.
  - intros Htruthy Hnot. apply Hraise; [ exact Htruthy | ].
    destruct points as [ | | | | | | d ]; try reflexivity.
    exfalso. apply (Hnot d). reflexivity.
  - intros d v -> Hp Hnot. apply Hraise.
    + apply (dict_lookup_some_truthy _ _ _ Hp).
    + unfold forecast_url_of, getitem. rewrite Hp. cbn [bind_result].
      destruct v as [ | | | | | | pd ]; try reflexivity.
      exfalso. apply (Hnot pd). reflexivity.
  - intros u fdata props ps Hurl Hfetch Hprops Hperiods Hex.
    rewrite (get_forecast_second _ _ _ _ _ _ Hpoints Hurl), Hfetch. simpl.
    rewrite (forecast_text_periods _ _ _ Hprops Hperiods).
    destruct (map_result_format_period_fault _ Hex) as [e [He [Hkind Hkey]]].
    exists e. rewrite He. auto.
Qed.

(** C10: a fetched payload that is falsy is handled as a failed fetch,
    although none occurred: [get_alerts] returns
    "Unable to fetch alerts!", [get_forecast] returns "No Data Found"
    when the points payload is falsy and "No Forecast Data Found" when
    the forecast payload is; the empty JSON object is such a payload. *)
Theorem C10_falsy_payload_as_failure :
  (forall state h data,
     snd (get_weather_data (JStr (alerts_url state)) h) = inr data ->
     truthy data = false ->
     snd (get_alerts state h) = inr "Unable to fetch alerts!")
  /\ (forall latitude longitude h data,
        snd (get_weather_data (JStr (points_url latitude longitude)) h) = inr data ->
        truthy data = false ->
        snd (get_forecast latitude longitude h) = inr "No Data Found")
  /\ (forall latitude longitude h h1 points u data,
        get_weather_data (JStr (points_url latitude longitude)) h = (h1, inr points) ->
        forecast_url_of points = inr u ->
        snd (get_weather_data u h1) = inr data ->
        truthy data = false ->
        snd (get_forecast latitude longitude h) = inr "No Forecast Data Found")
  /\ truthy (JObj []) = false.
Proof.
  split; [ | split; [ | split ] ].
  - intros state h data Hfetch Hfalsy.
    rewrite (get_alerts_run _ _ _ Hfetch). apply alerts_text_falsy. exact Hfalsy.
  - intros latitude longitude h data Hfetch Hfalsy.
    destruct (get_weather_data (JStr (points_url latitude longitude)) h)
      as [h1 r] eqn:Hrun.
    simpl in Hfetch. subst r.
    rewrite (get_forecast_points_falsy _ _ _ _ _ Hrun Hfalsy). reflexivity.
  - intros latitude longitude h h1 points u data Hpoints Hurl Hfetch Hfalsy.
    rewrite (get_forecast_second _ _ _ _ _ _ Hpoints Hurl), Hfetch. simpl.
    unfold forecast_text. rewrite Hfalsy. reflexivity.
  - reflexivity.
Qed.

(** ** The operations as functions of the fetch results *)

Lemma get_alerts_result (state : string) (h : list request) :
  snd (get_alerts state h) =
  bind_result (snd (get_weather_data (JStr (alerts_url state)) h)) alerts_text.
Proof.
  unfold get_alerts, bind, lift.
  destruct (get_weather_data (JStr (alerts_url state)) h) as [h1 [e | data]]; reflexivity.
Qed.

Lemma get_forecast_result (latitude longitude : float) (h : list request) :
  snd (get_forecast latitude longitude h) =
  bind_result
    (snd (get_weather_data (JStr (points_url latitude longitude)) h))
    (fun points =>
       if negb (truthy points) then inr "No Data Found"
       else
         bind_result (forecast_url_of points)
           (fun u =>
              bind_result
                (snd (get_weather_data
                        u (h ++ [request_for (points_url latitude longitude)])%list))
                forecast_text)).
Proof.
  pose proof (f_equal fst (get_weather_data_str (points_url latitude longitude) h)) as Hlog.
  destruct (get_weather_data (JStr (points_url latitude longitude)) h)
    as [h1 [e | points]] eqn:Hrun; simpl in Hlog; subst h1.
  - unfold get_forecast, bind. rewrite Hrun. reflexivity.
  - cbn [snd bind_result].
    destruct (truthy points) eqn:Htruthy; cbn [negb].
    + destruct (forecast_url_of points) as [e | u] eqn:Hurl; cbn [bind_result].
      * rewrite (get_forecast_no_url _ _ _ _ _ _ Hrun Htruthy Hurl). reflexivity.
      * apply (get_forecast_second _ _ _ _ _ _ Hrun Hurl).
    + rewrite (get_forecast_points_falsy _ _ _ _ _ Hrun Htruthy). reflexivity.
Qed.

(** ** Further properties of the fetcher *)

(** X1: a call of [get_weather_data] with a string URL hands exactly one
    request to the client, whatever comes of it: for that URL, with the
    headers [User-Agent: weather-app/1.0] and
    [Accept: application/geo+json] and the timeout 35; with a [url] that
    is not a string nothing is sent. *)
Theorem X1_fetch_sends_one_request :
  (forall u h,
     fst (get_weather_data (JStr u) h) =
     (h ++ [mkRequest u [("User-Agent", "weather-app/1.0");
                         ("Accept", "application/geo+json")] 35])%list)
  /\ (forall url h, (forall u, url <> JStr u) -> fst (get_weather_data url h) = h).
Proof.
  split.
  - intros u h. rewrite get_weather_data_str. reflexivity.
  - intros url h Hu. rewrite get_weather_data_not_str by assumption. reflexivity.
Qed.

Lemma is_success_range (r : response) :
  is_success r = true <-> (200 <= status_code r <= 299)%Z.
Proof.
  unfold is_success. rewrite andb_true_iff, !Z.leb_le. tauto.
Qed.

(** X2: [get_weather_data] returns a value [v] other than [None] exactly
    when the upstream answered with a status from 200 to 299 and a body
    that decodes to [v]. *)
Theorem X2_fetch_value_iff (u : string) (h : list request) (v : json) :
  v <> JNull ->
  (snd (get_weather_data (JStr u) h) = inr v
   <-> exists r, net h (request_for u) = Responds r
                 /\ (200 <= status_code r <= 299)%Z
                 /\ json_body r = Some v).
Proof.
  intros Hv. rewrite get_weather_data_str. cbn [snd]. split.
  - destruct (net h (request_for u)) as [e | r].
    + destruct (is_Exception e); intros H; [ | discriminate ].
      injection H as <-. contradiction.
    + destruct (is_success r) eqn:Hs.
      * destruct (json_body r) as [b | ] eqn:Hb; intros H; injection H as <-.
        -- exists r. rewrite <- is_success_range. auto.
        -- contradiction.
      * intros H. injection H as <-. contradiction.
  - intros [r [-> [Hs Hb]]].
    rewrite (proj2 (is_success_range r) Hs), Hb. reflexivity.
Qed.

Lemma get_weather_data_raises (url : json) (h : list request) (e : exn) :
  snd (get_weather_data url h) = inl e ->
  exists u, url = JStr u
            /\ net h (request_for u) = Raises e
            /\ is_Exception e = false.
Proof.
  destruct url as [ | | | | u | | ]; try discriminate.
  rewrite get_weather_data_str. cbn [snd].
  destruct (net h (request_for u)) as [e' | r] eqn:Hnet.
  - destruct (is_Exception e') eqn:He; [ discriminate | ].
    intros H. injection H as <-. eauto.
  - destruct (is_success r); [ destruct (json_body r) | ]; discriminate.
Qed.

(** X3: [get_weather_data] raises [e] exactly when the URL is a string,
    the client raised [e], and [e] is no instance of [Exception]; so it
    never raises a status, transport, timeout, decode or type error. *)
Theorem X3_fetch_raises_iff (url : json) (h : list request) (e : exn) :
  snd (get_weather_data url h) = inl e
  <-> exists u, url = JStr u
                /\ net h (request_for u) = Raises e
                /\ is_Exception e = false.
Proof.
  split.
  - apply get_weather_data_raises.
  - intros [u [-> [Hnet He]]]. rewrite get_weather_data_str. cbn [snd].
    rewrite Hnet, He. reflexivity.
Qed.

(** ** Further properties of get_alerts *)

(** X4: [get_alerts] hands exactly one request to the client, whatever
    it ends in: for the URL made of the base, [/alerts/active/area/] and
    the state code as it was given. *)
Theorem X4_get_alerts_sends_one_request (state : string) (h : list request) :
  fst (get_alerts state h) =
  (h ++ [request_for ("https://api.weather.gov/alerts/active/area/" ++ state)])%list.
Proof.
  unfold get_alerts, bind, lift.
  pose proof (f_equal fst (get_weather_data_str (alerts_url state) h)) as Hlog.
  destruct (get_weather_data (JStr (alerts_url state)) h) as [h1 [e | data]];
    simpl in Hlog; subst h1; reflexivity.
Qed.

(** X5: when the fetched payload is a mapping whose [features] is there
    and falsy, of whatever type ([null], [0], an empty string, list or
    mapping), [get_alerts] returns "No active alerts for this state". *)
Theorem X5_get_alerts_falsy_features (state : string) (h : list request)
        (d : list (string * json)) (features : json) :
  snd (get_weather_data (JStr (alerts_url state)) h) = inr (JObj d) ->
  dict_lookup "features" d = Some features ->
  truthy features = false ->
  snd (get_alerts state h) = inr "No active alerts for this state".
Proof.
  intros Hfetch Hd Hfalsy. rewrite (get_alerts_run _ _ _ Hfetch).
  unfold alerts_text. rewrite (dict_lookup_some_truthy _ _ _ Hd). simpl.
  rewrite Hd. simpl. rewrite Hfalsy. reflexivity.
Qed.

(** X6: when the fetched payload is truthy and no mapping, [get_alerts]
    returns "Unable to fetch alerts!" if the payload is a list without
    the element ["features"] or a string without that substring, and
    raises [TypeError] otherwise; it never returns blocks. *)
Theorem X6_get_alerts_payload_not_mapping (state : string) (h : list request)
        (data : json) :
  snd (get_weather_data (JStr (alerts_url state)) h) = inr data ->
  truthy data = true ->
  (forall d, data <> JObj d) ->
  snd (get_alerts state h) =
  match data with
  | JArr items =>
      if existsb (json_is_str "features") items then inl TypeError
      else inr "Unable to fetch alerts!"
  | JStr s =>
      if is_substring "features" s then inl TypeError
      else inr "Unable to fetch alerts!"
  | _ => inl TypeError
  end.
Proof.
  intros Hfetch Htruthy Hnot. rewrite (get_alerts_run _ _ _ Hfetch).
  unfold alerts_text. rewrite Htruthy. cbn [negb].
  destruct data as [ | | | | s | items | d ]; try reflexivity.
  - cbn [contains bind_result]. destruct (is_substring "features" s); reflexivity.
  - cbn [contains bind_result].
    destruct (existsb (json_is_str "features") items); reflexivity.
  - exfalso. apply (Hnot d). reflexivity.
Qed.

(** X7: what [format_alert] does with every argument: [TypeError] when
    the feature is no mapping, [KeyError] when it has no [properties],
    [AttributeError] when its [properties] is no mapping, and the block
    of the five labeled lines otherwise. *)
Theorem X7_format_alert_cases (feature : json) :
  format_alert feature =
  match feature with
  | JObj m =>
      match dict_lookup "properties" m with
      | None => inl (KeyError "properties")
      | Some (JObj props) => inr (spec_alert_block props)
      | Some _ => inl AttributeError
      end
  | _ => inl TypeError
  end.
Proof.
  exact (format_alert_cases feature).
Qed.

Lemma map_result_inv {A B : Type} (f : A -> result B) (l : list A) (bs : list B) :
  map_result f l = inr bs -> Forall2 (fun a b => f a = inr b) l bs.
Proof.
  revert bs. induction l as [ | a l IH ]; simpl; intros bs H.
  - injection H as <-. constructor.
  - destruct (f a) as [ e | b ] eqn:Ha; [ discriminate | ].
    destruct (map_result f l) as [ e | bs' ]; [ discriminate | ].
    injection H as <-. constructor; auto.
Qed.

Lemma format_alert_inv (feature : json) (s : string) :
  format_alert feature = inr s ->
  exists props, feature_properties feature = Some props /\ s = spec_alert_block props.
Proof.
  rewrite format_alert_cases. unfold feature_properties.
  destruct feature as [ | | | | | | m ]; try discriminate.
  destruct (dict_lookup "properties" m) as [ v | ]; [ | discriminate ].
  destruct v; try discriminate. intros H. injection H as <-. eauto.
Qed.

Lemma map_result_format_alert_inv (fs : list json) (alerts : list string) :
  map_result format_alert fs = inr alerts ->
  exists ps, Forall2 (fun f props => feature_properties f = Some props) fs ps
             /\ alerts = map spec_alert_block ps.
Proof.
  intros H. apply map_result_inv in H.
  induction H as [ | f a fs alerts Hf _ [ps [Hps ->]] ].
  - exists []. split; constructor.
  - destruct (format_alert_inv _ _ Hf) as [props [Hp ->]].
    exists (props :: ps). split; [ constructor; assumption | reflexivity ].
Qed.

(** X8: a text returned by [get_alerts] is "Unable to fetch alerts!",
    or "No active alerts for this state", or the join of the blocks of a
    fetched mapping whose [features] is a non-empty list of mappings that
    each hold a [properties] mapping. *)
Theorem X8_get_alerts_text_inversion (state : string) (h : list request) (s : string) :
  snd (get_alerts state h) = inr s ->
  s = "Unable to fetch alerts!"
  \/ s = "No active alerts for this state"
  \/ exists d fs ps,
       snd (get_weather_data (JStr (alerts_url state)) h) = inr (JObj d)
       /\ dict_lookup "features" d = Some (JArr fs)
       /\ fs <> []
       /\ Forall2 (fun f props => feature_properties f = Some props) fs ps
       /\ s = join block_separator (map spec_alert_block ps).
Proof.
  rewrite get_alerts_result.
  destruct (snd (get_weather_data (JStr (alerts_url state)) h)) as [ e | data ];
    [ discriminate | ].
  cbn [bind_result]. unfold alerts_text.
  destruct (truthy data) eqn:Htruthy; cbn [negb bind_result];
    [ | intros H; injection H as <-; auto ].
  destruct (contains "features" data) as [ e | present ] eqn:Hc; cbn [bind_result];
    [ discriminate | ].
  destruct present; cbn [negb]; [ | intros H; injection H as <-; auto ].
  destruct data as [ | | | | | | d ]; try discriminate.
  cbn [getitem].
  destruct (dict_lookup "features" d) as [ features | ] eqn:Hd; [ | discriminate ].
  cbn [bind_result].
  destruct (truthy features) eqn:Hf; cbn [negb];
    [ | intros H; injection H as <-; auto ].
  destruct features as [ | | | | fstr | fs | fd ]; try discriminate.
  - destruct fstr as [ | c rest ]; [ discriminate | ]. discriminate.
  - cbn [py_iter bind_result].
    destruct (map_result format_alert fs) as [ e | alerts ] eqn:Hm; [ discriminate | ].
    cbn [bind_result]. intros H. injection H as <-.
    destruct (map_result_format_alert_inv _ _ Hm) as [ps [Hps ->]].
    right. right. exists d, fs, ps. repeat split; try assumption.
    intros ->. discriminate.
  - destruct fd as [ | [k v] rest ]; [ discriminate | ]. discriminate.
Qed.

(** X9: an exception [get_alerts] raises is a [TypeError], an
    [AttributeError], the [KeyError] of [properties], or no instance of
    [Exception]; nothing the fetch met on the way comes through. *)
Theorem X9_get_alerts_exceptions (state : string) (h : list request) (e : exn) :
  snd (get_alerts state h) = inl e ->
  e = TypeError \/ e = AttributeError \/ e = KeyError "properties"
  \/ is_Exception e = false.
Proof.
  rewrite get_alerts_result.
  destruct (snd (get_weather_data (JStr (alerts_url state)) h)) as [ e' | data ] eqn:Hfetch.
  - cbn [bind_result]. intros H. injection H as ->.
    apply get_weather_data_raises in Hfetch. destruct Hfetch as [u [_ [_ He]]]. auto.
  - cbn [bind_result]. unfold alerts_text.
    destruct (truthy data); cbn [negb bind_result]; [ | discriminate ].
    destruct (contains "features" data) as [ e' | present ] eqn:Hc; cbn [bind_result].
    + intros H. injection H as ->.
      destruct data; try discriminate; injection Hc as <-; auto.
    + destruct present; cbn [negb]; [ | discriminate ].
      destruct (getitem data "features") as [ e' | features ] eqn:Hg; cbn [bind_result].
      * intros H. injection H as ->. destruct data; try discriminate;
          try (injection Hg as <-; auto).
        cbn [getitem contains] in *. destruct (dict_lookup "features" members); discriminate.
      * destruct (truthy features); cbn [negb]; [ | discriminate ].
        destruct (py_iter features) as [ e' | items ] eqn:Hi; cbn [bind_result].
        -- intros H. injection H as ->.
           destruct features; try discriminate; injection Hi as <-; auto.
        -- destruct (map_result format_alert items) as [ e' | alerts ] eqn:Hm;
             cbn [bind_result]; [ | discriminate ].
           intros H. injection H as ->.
           destruct (map_result_fault_origin _ _ _ Hm) as [f [_ Hf]].
           rewrite format_alert_cases in Hf.
           destruct f as [ | | | | | | m ]; try (injection Hf as <-; auto).
           destruct (dict_lookup "properties" m) as [ v | ];
             [ | injection Hf as <-; auto ].
           destruct v; try discriminate; injection Hf as <-; auto.
Qed.

(** ** Further properties of get_forecast *)

(** X10: [get_forecast] hands one or two requests to the client: first
    the one for the points URL, and after it the one for
    [properties.forecast], exactly when the points payload is truthy and
    that value is a string. *)
Theorem X10_get_forecast_requests (latitude longitude : float) (h : list request) :
  fst (get_forecast latitude longitude h) =
  (h ++ request_for (points_url latitude longitude)
     :: match snd (get_weather_data (JStr (points_url latitude longitude)) h) with
        | inr points =>
            if truthy points
            then match forecast_url_of points with
                 | inr (JStr u) => [request_for u]
                 | _ => []
                 end
            else []
        | inl _ => []
        end)%list.
Proof.
  pose proof (f_equal fst (get_weather_data_str (points_url latitude longitude) h)) as Hlog.
  unfold get_forecast, bind, lift.
  destruct (get_weather_data (JStr (points_url latitude longitude)) h)
    as [h1 [e | points]]; simpl in Hlog; subst h1; cbn [fst snd]; [ reflexivity | ].
  destruct (truthy points); cbn [negb]; [ | reflexivity ].
  destruct (forecast_url_of points) as [e | u]; [ reflexivity | ].
  destruct u as [ | | | | u | | ]; try reflexivity.
  pose proof (f_equal fst (get_weather_data_str
                             u (h ++ [request_for (points_url latitude longitude)])%list))
    as Hlog2.
  destruct (get_weather_data (JStr u) _) as [h2 [e | fdata]];
    simpl in Hlog2; subst h2; cbn [fst]; rewrite <- app_assoc; reflexivity.
Qed.

(** X11: when [properties.forecast] of the points payload is there and
    is no string, [get_forecast] returns "No Forecast Data Found" and
    sends no second request. *)
Theorem X11_get_forecast_url_not_string (latitude longitude : float)
        (h h1 : list request) (points u : json) :
  get_weather_data (JStr (points_url latitude longitude)) h = (h1, inr points) ->
  forecast_url_of points = inr u ->
  (forall s, u <> JStr s) ->
  get_forecast latitude longitude h = (h1, inr "No Forecast Data Found").
Proof.
  intros Hpoints Hurl Hu. unfold get_forecast, bind, lift.
  rewrite Hpoints, (forecast_url_truthy _ _ Hurl), Hurl. cbn [negb].
  rewrite (get_weather_data_not_str u h1 Hu). reflexivity.
Qed.

Lemma get_forecast_periods_result (latitude longitude : float) (h h1 : list request)
      (points u fdata props : json) (ps : list json) :
  get_weather_data (JStr (points_url latitude longitude)) h = (h1, inr points) ->
  forecast_url_of points = inr u ->
  snd (get_weather_data u h1) = inr fdata ->
  getitem fdata "properties" = inr props ->
  getitem props "periods" = inr (JArr ps) ->
  snd (get_forecast latitude longitude h) =
  bind_result (map_result format_period (firstn 7 ps))
              (fun forecasts => inr (join block_separator forecasts)).
Proof.
  intros Hpoints Hurl Hfetch Hprops Hperiods.
  rewrite (get_forecast_second _ _ _ _ _ _ Hpoints Hurl), Hfetch. cbn [bind_result].
  apply (forecast_text_periods _ _ _ Hprops Hperiods).
Qed.

Lemma format_period_inv (period : json) (s : string) :
  format_period period = inr s ->
  exists v, view_period period = Some v /\ s = spec_forecast_block v.
Proof.
  intros H. destruct (view_period period) as [ v | ] eqn:Hv.
  - rewrite (format_period_view _ _ Hv) in H. injection H as <-. eauto.
  - destruct (format_period_incomplete _ Hv) as [e [He _]]. congruence.
Qed.

Lemma map_result_format_period_inv (ps : list json) (forecasts : list string) :
  map_result format_period ps = inr forecasts ->
  exists views, Forall2 (fun p v => view_period p = Some v) ps views
                /\ forecasts = map spec_forecast_block views.
Proof.
  intros H. apply map_result_inv in H.
  induction H as [ | p b ps forecasts Hp _ [views [Hviews ->]] ].
  - exists []. split; constructor.
  - destruct (format_period_inv _ _ Hp) as [v [Hv ->]].
    exists (v :: views). split; [ constructor; assumption | reflexivity ].
Qed.

Lemma forecast_text_inv (fdata : json) (s : string) :
  truthy fdata = true ->
  forecast_text fdata = inr s ->
  exists props periods,
    getitem fdata "properties" = inr props
    /\ getitem props "periods" = inr periods
    /\ ((periods = JStr "" /\ s = "")
        \/ exists ps views,
             periods = JArr ps
             /\ Forall2 (fun p v => view_period p = Some v) (firstn 7 ps) views
             /\ s = join block_separator (map spec_forecast_block views)).
Proof.
  intros Htruthy. unfold forecast_text. rewrite Htruthy. cbn [negb].
  destruct (getitem fdata "properties") as [ e | props ] eqn:Hp; [ discriminate | ].
  cbn [bind_result].
  destruct (getitem props "periods") as [ e | periods ] eqn:Hq; [ discriminate | ].
  cbn [bind_result]. intros H. exists props, periods.
  split; [ reflexivity | split; [ exact Hq | ] ].
  destruct periods as [ | | | | str | ps | d ]; try discriminate.
  - destruct str as [ | c rest ].
    + left. injection H as <-. split; reflexivity.
    + discriminate.
  - right. cbn [slice_to py_iter bind_result] in H.
    destruct (map_result format_period (firstn 7 ps)) as [ e | forecasts ] eqn:Hm;
      [ discriminate | ].
    injection H as <-.
    destruct (map_result_format_period_inv _ _ Hm) as [views [Hviews ->]].
    exists ps, views. auto.
Qed.

(** X12: a text returned by [get_forecast] is "No Data Found", or
    "No Forecast Data Found", or comes from a forecast payload whose
    [properties.periods] is the empty string (the text is empty then) or
    a list whose first [min(N,7)] periods hold all the required fields
    (the text is the join of their blocks). *)
Theorem X12_get_forecast_text_inversion (latitude longitude : float)
        (h : list request) (s : string) :
  snd (get_forecast latitude longitude h) = inr s ->
  s = "No Data Found"
  \/ s = "No Forecast Data Found"
  \/ exists points u fdata props periods,
       snd (get_weather_data (JStr (points_url latitude longitude)) h) = inr points
       /\ forecast_url_of points = inr u
       /\ snd (get_weather_data
                 u (h ++ [request_for (points_url latitude longitude)])%list) = inr fdata
       /\ getitem fdata "properties" = inr props
       /\ getitem props "periods" = inr periods
       /\ ((periods = JStr "" /\ s = "")
           \/ exists ps views,
                periods = JArr ps
                /\ Forall2 (fun p v => view_period p = Some v) (firstn 7 ps) views
                /\ s = join block_separator (map spec_forecast_block views)).
Proof.
  rewrite get_forecast_result.
  destruct (snd (get_weather_data (JStr (points_url latitude longitude)) h))
    as [ e | points ]; [ discriminate | ].
  cbn [bind_result].
  destruct (truthy points); cbn [negb]; [ | intros H; injection H as <-; auto ].
  destruct (forecast_url_of points) as [ e | u ] eqn:Hurl; [ discriminate | ].
  cbn [bind_result].
  destruct (snd (get_weather_data u _)) as [ e | fdata ] eqn:Hfetch; [ discriminate | ].
  cbn [bind_result]. intros H.
  destruct (truthy fdata) eqn:Htruthy.
  - destruct (forecast_text_inv _ _ Htruthy H) as [props [periods [Hp [Hq Hs]]]].
    right. right. exists points, u, fdata, props, periods. auto 7.
  - unfold forecast_text in H. rewrite Htruthy in H. injection H as <-. auto.
Qed.

(** X13: when [properties.periods] of the forecast payload is an empty
    list or an empty string, [get_forecast] returns the empty text, and
    none of the fixed messages. *)
Theorem X13_get_forecast_no_periods (latitude longitude : float) (h h1 : list request)
        (points u fdata props periods : json) :
  get_weather_data (JStr (points_url latitude longitude)) h = (h1, inr points) ->
  forecast_url_of points = inr u ->
  snd (get_weather_data u h1) = inr fdata ->
  getitem fdata "properties" = inr props ->
  getitem props "periods" = inr periods ->
  periods = JArr [] \/ periods = JStr "" ->
  snd (get_forecast latitude longitude h) = inr "".
Proof.
  intros Hpoints Hurl Hfetch Hprops Hperiods Hempty.
  rewrite (get_forecast_second _ _ _ _ _ _ Hpoints Hurl), Hfetch. cbn [bind_result].
  unfold forecast_text.
  rewrite (getitem_ok_truthy _ _ _ Hprops), Hprops. cbn [negb bind_result].
  rewrite Hperiods. destruct Hempty as [-> | ->]; reflexivity.
Qed.

Ltac key_fault :=
  intros H; injection H as <-; right; eexists;
  split; [ | reflexivity ]; simpl; auto 15.

Lemma format_period_fault_kind (period : json) (e : exn) :
  format_period period = inl e ->
  e = TypeError \/ exists k, In k forecast_keys /\ e = KeyError k.
Proof.
  destruct period as [ | | | | | | m ];
    try solve [ intros H; injection H as <-; left; reflexivity ].
  unfold format_period, getitem, bind_result.
  destruct (dict_lookup "name" m); cbv beta iota; [ | key_fault ].
  destruct (dict_lookup "temperature" m); cbv beta iota; [ | key_fault ].
  destruct (dict_lookup "temperatureUnit" m); cbv beta iota; [ | key_fault ].
  destruct (dict_lookup "windSpeed" m); cbv beta iota; [ | key_fault ].
  destruct (dict_lookup "windDirection" m); cbv beta iota; [ | key_fault ].
  destruct (dict_lookup "probabilityOfPrecipitation" m) as [ pop | ];
    cbv beta iota; [ | key_fault ].
  destruct pop as [ | | | | | | popm ]; cbv beta iota;
    try solve [ intros H; injection H as <-; left; reflexivity ].
  destruct (dict_lookup "value" popm); cbv beta iota; [ | key_fault ].
  destruct (dict_lookup "detailedForecast" m); cbv beta iota;
    [ discriminate | key_fault ].
Qed.

Lemma getitem_fault_kind (v : json) (k : string) (e : exn) :
  getitem v k = inl e -> e = TypeError \/ e = KeyError k.
Proof.
  destruct v as [ | | | | | | d ]; simpl;
    try solve [ intros H; injection H as <-; auto ].
  destruct (dict_lookup k d); [ discriminate | ].
  intros H. injection H as <-. auto.
Qed.

(** X14: an exception [get_forecast] raises is a [TypeError], the
    exception of a slice of a mapping, a [KeyError] of one of the keys
    the code subscripts with, or no instance of [Exception]; nothing the
    fetches met on the way comes through. *)
Theorem X14_get_forecast_exceptions (latitude longitude : float)
        (h : list request) (e : exn) :
  snd (get_forecast latitude longitude h) = inl e ->
  e = TypeError \/ e = SliceKeyError
  \/ (exists k, In k forecast_keys /\ e = KeyError k)
  \/ is_Exception e = false.
Proof.
  rewrite get_forecast_result.
  destruct (snd (get_weather_data (JStr (points_url latitude longitude)) h))
    as [ e' | points ] eqn:Hpoints; cbn [bind_result].
  { intros H. injection H as ->.
    destruct (get_weather_data_raises _ _ _ Hpoints) as [u [_ [_ He]]]. auto. }
  destruct (truthy points); cbn [negb]; [ | discriminate ].
  unfold forecast_url_of at 1.
  destruct (getitem points "properties") as [ e' | pprops ] eqn:Hp1; cbn [bind_result].
  { intros H. injection H as ->.
    destruct (getitem_fault_kind _ _ _ Hp1) as [-> | ->]; [ auto | ].
    right. right. left. exists "properties". simpl. auto. }
  destruct (getitem pprops "forecast") as [ e' | u ] eqn:Hp2; cbn [bind_result].
  { intros H. injection H as ->.
    destruct (getitem_fault_kind _ _ _ Hp2) as [-> | ->]; [ auto | ].
    right. right. left. exists "forecast". simpl. auto. }
  destruct (snd (get_weather_data u _)) as [ e' | fdata ] eqn:Hfetch; cbn [bind_result].
  { intros H. injection H as ->.
    destruct (get_weather_data_raises _ _ _ Hfetch) as [u' [_ [_ He]]]. auto. }
  unfold forecast_text.
  destruct (truthy fdata); cbn [negb]; [ | discriminate ].
  destruct (getitem fdata "properties") as [ e' | props ] eqn:Hf1; cbn [bind_result].
  { intros H. injection H as ->.
    destruct (getitem_fault_kind _ _ _ Hf1) as [-> | ->]; [ auto | ].
    right. right. left. exists "properties". simpl. auto. }
  destruct (getitem props "periods") as [ e' | periods ] eqn:Hf2; cbn [bind_result].
  { intros H. injection H as ->.
    destruct (getitem_fault_kind _ _ _ Hf2) as [-> | ->]; [ auto | ].
    right. right. left. exists "periods". simpl. auto. }
  destruct (slice_to 7 periods) as [ e' | first7 ] eqn:Hslice; cbn [bind_result].
  { intros H. injection H as ->.
    destruct periods; try discriminate; injection Hslice as <-; auto. }
  destruct (py_iter first7) as [ e' | items ] eqn:Hiter; cbn [bind_result].
  { intros H. injection H as ->.
    destruct first7; try discriminate; injection Hiter as <-; auto. }
  destruct (map_result format_period items) as [ e' | forecasts ] eqn:Hm;
    cbn [bind_result]; [ | discriminate ].
  intros H. injection H as ->.
  destruct (map_result_fault_origin _ _ _ Hm) as [p [_ Hp]].
  destruct (format_period_fault_kind _ _ Hp) as [-> | Hk]; auto.
Qed.

(** ** inspect_weather_api.py *)

(** X15: [sample] hands one request to the client, for the URL of all
    active alerts with its own [User-Agent]; what the client raises
    reaches the caller, a body that does not decode raises, and the
    status of the response is never looked at: with a body that decodes,
    the outcome is that of the payload, whatever the status. *)
Theorem X15_sample_fetch (h : list request) :
  fst (sample h) = (h ++ [sample_request])%list
  /\ (forall e, net h sample_request = Raises e -> snd (sample h) = inl (Raised e))
  /\ (forall r, net h sample_request = Responds r -> json_body r = None ->
                snd (sample h) = inl (Raised JSONDecodeError))
  /\ (forall r data, net h sample_request = Responds r -> json_body r = Some data ->
                     snd (sample h) = sample_output data).
Proof.
  assert (Hrun : sample h =
                 ((h ++ [sample_request])%list,
                  match net h sample_request with
                  | Raises e => inl (Raised e)
                  | Responds r =>
                      match json_body r with
                      | Some data => sample_output data
                      | None => inl (Raised JSONDecodeError)
                      end
                  end)).
  { unfold sample, client_get, sample_request, response_json, ret, raise.
    destruct (net h _) as [ e | r ]; [ reflexivity | ].
    destruct (json_body r); reflexivity. }
  rewrite Hrun. cbn [fst snd]. split; [ reflexivity | ]. split; [ | split ].
  - intros e ->. reflexivity.
  - intros r -> ->. reflexivity.
  - intros r data -> ->. reflexivity.
Qed.


End Weather.

(** ** The properties on the fixtures *)

Lemma C1_witness :
  snd (get_forecast fixture_float_str fixture_str_repr
         (fixture_forecast_net (ok_json fixture_points)
                               (ok_json (fixture_forecast fixture_nine_periods)))
         47.5%float (-122.25)%float []) =
    inr "
Period 1:
Temperature: 51 Degrees F
Wind: 5 to 10 mph SW
Precipitation: 10%
Detailed Forecast: Mostly sunny.
---

Period 2:
Temperature: 52 Degrees F
Wind: 5 to 10 mph SW
Precipitation: 20%
Detailed Forecast: Mostly sunny.
---

Period 3:
Temperature: 53 Degrees F
Wind: 5 to 10 mph SW
Precipitation: 30%
Detailed Forecast: Mostly sunny.
---

Period 4:
Temperature: 54 Degrees F
Wind: 5 to 10 mph SW
Precipitation: 40%
Detailed Forecast: Mostly sunny.
---

Period 5:
Temperature: 55 Degrees F
Wind: 5 to 10 mph SW
Precipitation: 50%
Detailed Forecast: Mostly sunny.
---

Period 6:
Temperature: 56 Degrees F
Wind: 5 to 10 mph SW
Precipitation: 60%
Detailed Forecast: Mostly sunny.
---

Period 7:
Temperature: 57 Degrees F
Wind: 5 to 10 mph SW
Precipitation: 70%
Detailed Forecast: Mostly sunny.".
Proof.
  refine (eq_trans
            (proj1 (C1_get_forecast_blocks
                      fixture_float_str fixture_str_repr
                      (fixture_forecast_net (ok_json fixture_points)
                                            (ok_json (fixture_forecast fixture_nine_periods)))
                      47.5%float (-122.25)%float [] [request_for fixture_points_url]
                      fixture_points (JStr fixture_forecast_url)
                      (fixture_forecast fixture_nine_periods)
                      (fixture_forecast_props fixture_nine_periods)
                      fixture_nine_periods
                      (map fixture_view [1; 2; 3; 4; 5; 6; 7]%Z)
                      _ _ _ _ _ _))
            _).
  - vm_compute. reflexivity.
  - vm_compute. reflexivity.
  - vm_compute. reflexivity.
  - vm_compute. reflexivity.
  - vm_compute. reflexivity.
  - vm_compute. repeat constructor.
  - vm_compute. reflexivity.
Defined.

Lemma C2_witness :
  snd (get_alerts fixture_float_str fixture_str_repr
         (fixture_alerts_net
            (ok_json (fixture_alerts [fixture_feature_full; fixture_feature_sparse])))
         "WA" []) =
  inr "
Event: Flood Warning
Area: King, WA
Severity: Severe
Description: River above flood stage.
Instruction: Move to higher ground.

---

Event: Wind Advisory
Area: Unknown
Severity: Unknown
Description: No Description
Instruction: None
".
Proof.
  refine (eq_trans
            (proj1 (C2_get_alerts_blocks
                      fixture_float_str fixture_str_repr
                      (fixture_alerts_net
                         (ok_json (fixture_alerts
                                     [fixture_feature_full; fixture_feature_sparse])))
                      "WA" []
                      [("type", JStr "FeatureCollection");
                       ("features", JArr [fixture_feature_full; fixture_feature_sparse])]
                      [fixture_feature_full; fixture_feature_sparse]
                      [fixture_props_full; fixture_props_sparse] _ _ _ _))
            _).
  - vm_compute. reflexivity.
  - vm_compute. reflexivity.
  - discriminate.
  - repeat constructor.
  - vm_compute. reflexivity.
Defined.

Lemma C3_witness :
  snd (get_weather_data (fixture_alerts_net (Raises TimeoutException))
                        (JStr fixture_alerts_url) []) = inr JNull
  /\ snd (get_weather_data (fixture_alerts_net (Responds (mkResponse 500 (Some (JObj [])))))
                           (JStr fixture_alerts_url) []) = inr JNull.
Proof.
  split.
  - apply (proj1 (C3_fetcher_collapses_faults (fixture_alerts_net (Raises TimeoutException)))).
    vm_compute. constructor.
  - apply (proj1 (C3_fetcher_collapses_faults
                    (fixture_alerts_net (Responds (mkResponse 500 (Some (JObj []))))))).
    vm_compute. apply fault_status. reflexivity.
Defined.

Lemma C4_witness :
  snd (get_alerts fixture_float_str fixture_str_repr
         (fixture_alerts_net (ok_json (JObj [("title", JStr "Not Found")])))
         "WA" []) = inr "Unable to fetch alerts!".
Proof.
  apply (C4_get_alerts_unable
           fixture_float_str fixture_str_repr
           (fixture_alerts_net (ok_json (JObj [("title", JStr "Not Found")])))
           "WA" [] (JObj [("title", JStr "Not Found")])).
  - vm_compute. reflexivity.
  - right. exists [("title", JStr "Not Found")]. split; reflexivity.
Defined.

Lemma C5_witness :
  get_forecast fixture_float_str fixture_str_repr
    (fixture_forecast_net (Raises TimeoutException) (ok_json (fixture_forecast [])))
    47.5%float (-122.25)%float [] =
    ([request_for fixture_points_url], inr "No Data Found")
  /\ snd (get_forecast fixture_float_str fixture_str_repr
            (fixture_forecast_net (ok_json fixture_points)
                                  (Responds (mkResponse 503 None)))
            47.5%float (-122.25)%float []) = inr "No Forecast Data Found".
Proof.
  split.
  - apply (proj1 (C5_get_forecast_fetch_failures
                    fixture_float_str fixture_str_repr
                    (fixture_forecast_net (Raises TimeoutException)
                                          (ok_json (fixture_forecast [])))
                    47.5%float (-122.25)%float [])).
    vm_compute. reflexivity.
  - apply (proj2 (C5_get_forecast_fetch_failures
                    fixture_float_str fixture_str_repr
                    (fixture_forecast_net (ok_json fixture_points)
                                          (Responds (mkResponse 503 None)))
                    47.5%float (-122.25)%float [])
                 [request_for fixture_points_url] fixture_points
                 (JStr fixture_forecast_url)).
    + vm_compute. reflexivity.
    + vm_compute. reflexivity.
    + vm_compute. reflexivity.
Defined.

Lemma C6_witness :
  snd (get_alerts fixture_float_str fixture_str_repr
         (fixture_alerts_net (ok_json (fixture_alerts [])))
         "WA" []) = inr "No active alerts for this state".
Proof.
  apply (C6_get_alerts_no_active
           fixture_float_str fixture_str_repr
           (fixture_alerts_net (ok_json (fixture_alerts [])))
           "WA" []
           [("type", JStr "FeatureCollection"); ("features", JArr [])]).
  - vm_compute. reflexivity.
  - vm_compute. reflexivity.
Defined.

Lemma C7_witness :
  snd (get_forecast fixture_float_str fixture_str_repr
         (fixture_forecast_net (ok_json (JObj [("properties", JObj [])]))
                               (ok_json (fixture_forecast [])))
         47.5%float (-122.25)%float []) = inl (KeyError "forecast")
  /\ snd (get_forecast fixture_float_str fixture_str_repr
            (fixture_forecast_net (ok_json (JObj [("properties", JStr "none")]))
                                  (ok_json (fixture_forecast [])))
            47.5%float (-122.25)%float []) = inl TypeError
  /\ (exists e,
        snd (get_forecast fixture_float_str fixture_str_repr
               (fixture_forecast_net
                  (ok_json fixture_points)
                  (ok_json (fixture_forecast [fixture_period 1; fixture_period_short 2])))
               47.5%float (-122.25)%float []) = inl e
        /\ (e = TypeError \/ exists k, e = KeyError k)
        /\ (Forall (fun p => period_mapping p = true)
                   (firstn 7 [fixture_period 1; fixture_period_short 2]) ->
            exists k, e = KeyError k)).
Proof.
  split; [ | split ].
  - refine (proj1 (proj2 (proj2 (proj2
              (C7_missing_required_field_faults
                 fixture_float_str fixture_str_repr
                 (fixture_forecast_net (ok_json (JObj [("properties", JObj [])]))
                                       (ok_json (fixture_forecast [])))
                 47.5%float (-122.25)%float [] [request_for fixture_points_url]
                 (JObj [("properties", JObj [])]) _))))
              [("properties", JObj [])] [] eq_refl _ _).
    + vm_compute. reflexivity.
    + reflexivity.
    + reflexivity.
  - refine (proj1 (proj2 (proj2 (proj2 (proj2 (proj2
              (C7_missing_required_field_faults
                 fixture_float_str fixture_str_repr
                 (fixture_forecast_net (ok_json (JObj [("properties", JStr "none")]))
                                       (ok_json (fixture_forecast [])))
                 47.5%float (-122.25)%float [] [request_for fixture_points_url]
                 (JObj [("properties", JStr "none")]) _))))))
              [("properties", JStr "none")] (JStr "none") eq_refl _ _).
    + vm_compute. reflexivity.
    + reflexivity.
    + discriminate.
  - refine (proj2 (proj2 (proj2 (proj2 (proj2 (proj2
              (C7_missing_required_field_faults
                 fixture_float_str fixture_str_repr
                 (fixture_forecast_net
                    (ok_json fixture_points)
                    (ok_json (fixture_forecast
                                [fixture_period 1; fixture_period_short 2])))
                 47.5%float (-122.25)%float [] [request_for fixture_points_url]
                 fixture_points _))))))
              (JStr fixture_forecast_url)
              (fixture_forecast [fixture_period 1; fixture_period_short 2])
              (fixture_forecast_props [fixture_period 1; fixture_period_short 2])
              [fixture_period 1; fixture_period_short 2] _ _ _ _ _).
    + vm_compute. reflexivity.
    + vm_compute. reflexivity.
    + vm_compute. reflexivity.
    + vm_compute. reflexivity.
    + vm_compute. reflexivity.
    + apply Exists_cons_tl. apply Exists_cons_hd. vm_compute. reflexivity.
Defined.

(** The points payload [{}] is fetched, is not [None] and has no
    [properties.forecast], and [get_forecast] returns "No Data Found";
    the points payload [{"properties": null}] has no
    [properties.forecast] either, and what [get_forecast] raises is a
    [TypeError]; a forecast payload whose only period has [null] for
    [probabilityOfPrecipitation], and so no value in it, makes
    [get_forecast] raise a [TypeError] as well. *)
Lemma C7_counterexample :
  (snd (get_weather_data (fixture_forecast_net (ok_json (JObj [])) (Raises TransportError))
                         (JStr (points_url fixture_float_str 47.5%float (-122.25)%float)) []) =
     inr (JObj [])
   /\ JObj [] <> JNull
   /\ forecast_url_of (JObj []) = inl (KeyError "properties")
   /\ snd (get_forecast fixture_float_str fixture_str_repr
             (fixture_forecast_net (ok_json (JObj [])) (Raises TransportError))
             47.5%float (-122.25)%float []) = inr "No Data Found")
  /\ (forecast_url_of (JObj [("properties", JNull)]) = inl TypeError
      /\ snd (get_forecast fixture_float_str fixture_str_repr
                (fixture_forecast_net (ok_json (JObj [("properties", JNull)]))
                                      (Raises TransportError))
                47.5%float (-122.25)%float []) = inl TypeError)
  /\ (getitem fixture_period_null_pop "probabilityOfPrecipitation" = inr JNull
      /\ view_period fixture_period_null_pop = None
      /\ snd (get_forecast fixture_float_str fixture_str_repr
                (fixture_forecast_net
                   (ok_json fixture_points)
                   (ok_json (fixture_forecast [fixture_period_null_pop])))
                47.5%float (-122.25)%float []) = inl TypeError).
Proof.
  repeat split; try discriminate; vm_compute; reflexivity.
Qed.

Lemma C9_witness :
  format_alert fixture_float_str fixture_str_repr fixture_feature_bare =
    inl (KeyError "properties")
  /\ snd (get_alerts fixture_float_str fixture_str_repr
            (fixture_alerts_net
               (ok_json (fixture_alerts [fixture_feature_full; fixture_feature_bare;
                                         JInt 3])))
            "WA" []) = inl (KeyError "properties").
Proof.
  split.
  - apply (proj1 (C9_missing_properties_is_a_fault
                    fixture_float_str fixture_str_repr
                    (fixture_alerts_net (Raises TransportError)))).
    reflexivity.
  - refine (proj2 (proj2 (C9_missing_properties_is_a_fault
                            fixture_float_str fixture_str_repr
                            (fixture_alerts_net
                               (ok_json (fixture_alerts
                                           [fixture_feature_full; fixture_feature_bare;
                                            JInt 3])))))
                  "WA" []
                  [("type", JStr "FeatureCollection");
                   ("features", JArr [fixture_feature_full; fixture_feature_bare;
                                      JInt 3])]
                  [fixture_feature_full] fixture_feature_bare [JInt 3] _ _ _ _).
    + vm_compute. reflexivity.
    + vm_compute. reflexivity.
    + reflexivity.
    + apply Forall_cons; [ left; discriminate | apply Forall_nil ].
Defined.

(** The features [{"properties": null}, {}]: the second is a mapping
    without [properties], and what [get_alerts] raises is the
    [AttributeError] of the first, no [KeyError]. *)
Lemma C9_counterexample :
  snd (get_weather_data
         (fixture_alerts_net
            (ok_json (fixture_alerts [JObj [("properties", JNull)]; JObj []])))
         (JStr (alerts_url "WA")) []) =
    inr (fixture_alerts [JObj [("properties", JNull)]; JObj []])
  /\ dict_lookup "properties" [] = None
  /\ In (JObj []) [JObj [("properties", JNull)]; JObj []]
  /\ snd (get_alerts fixture_float_str fixture_str_repr
            (fixture_alerts_net
               (ok_json (fixture_alerts [JObj [("properties", JNull)]; JObj []])))
            "WA" []) = inl AttributeError
  /\ AttributeError <> KeyError "properties".
Proof.
  repeat split; try discriminate; try (vm_compute; reflexivity).
  right. left. reflexivity.
Qed.

Lemma C10_witness :
  snd (get_alerts fixture_float_str fixture_str_repr
         (fixture_alerts_net (ok_json (JObj []))) "WA" []) =
    inr "Unable to fetch alerts!"
  /\ snd (get_forecast fixture_float_str fixture_str_repr
            (fixture_forecast_net (ok_json (JArr [])) (Raises TransportError))
            47.5%float (-122.25)%float []) = inr "No Data Found"
  /\ snd (get_forecast fixture_float_str fixture_str_repr
            (fixture_forecast_net (ok_json fixture_points) (ok_json (JObj [])))
            47.5%float (-122.25)%float []) = inr "No Forecast Data Found".
Proof.
  split; [ | split ].
  - apply (proj1 (C10_falsy_payload_as_failure
                    fixture_float_str fixture_str_repr
                    (fixture_alerts_net (ok_json (JObj []))))
                 "WA" [] (JObj [])).
    + vm_compute. reflexivity.
    + reflexivity.
  - apply (proj1 (proj2 (C10_falsy_payload_as_failure
                           fixture_float_str fixture_str_repr
                           (fixture_forecast_net (ok_json (JArr []))
                                                 (Raises TransportError))))
                 47.5%float (-122.25)%float [] (JArr [])).
    + vm_compute. reflexivity.
    + reflexivity.
  - apply (proj1 (proj2 (proj2 (C10_falsy_payload_as_failure
                                  fixture_float_str fixture_str_repr
                                  (fixture_forecast_net (ok_json fixture_points)
                                                        (ok_json (JObj []))))))
                 47.5%float (-122.25)%float [] [request_for fixture_points_url]
                 fixture_points (JStr fixture_forecast_url) (JObj [])).
    + vm_compute. reflexivity.
    + vm_compute. reflexivity.
    + vm_compute. reflexivity.
    + reflexivity.
Defined.

(** ** Two runs compared, and the further properties on the fixtures *)

(** X17: [get_forecast] reads no period after the seventh: two runs
    whose forecast payloads hold period lists with the same first seven
    elements end the same way, in the same text or the same exception,
    whatever follows in either list. *)
Theorem X17_get_forecast_reads_seven_periods
        (float_str : float -> string) (str_repr : string -> string)
        (net1 net2 : network) (latitude longitude : float)
        (h1 h1' h2 h2' : list request)
        (points1 u1 fdata1 props1 points2 u2 fdata2 props2 : json)
        (ps1 ps2 : list json) :
  get_weather_data net1 (JStr (points_url float_str latitude longitude)) h1 =
    (h1', inr points1) ->
  forecast_url_of points1 = inr u1 ->
  snd (get_weather_data net1 u1 h1') = inr fdata1 ->
  getitem fdata1 "properties" = inr props1 ->
  getitem props1 "periods" = inr (JArr ps1) ->
  get_weather_data net2 (JStr (points_url float_str latitude longitude)) h2 =
    (h2', inr points2) ->
  forecast_url_of points2 = inr u2 ->
  snd (get_weather_data net2 u2 h2') = inr fdata2 ->
  getitem fdata2 "properties" = inr props2 ->
  getitem props2 "periods" = inr (JArr ps2) ->
  firstn 7 ps1 = firstn 7 ps2 ->
  snd (get_forecast float_str str_repr net1 latitude longitude h1) =
  snd (get_forecast float_str str_repr net2 latitude longitude h2).
Proof.
  intros Hp1 Hu1 Hf1 Hq1 Hr1 Hp2 Hu2 Hf2 Hq2 Hr2 Hsame.
  rewrite (get_forecast_periods_result _ _ _ _ _ _ _ _ _ _ _ _ Hp1 Hu1 Hf1 Hq1 Hr1).
  rewrite (get_forecast_periods_result _ _ _ _ _ _ _ _ _ _ _ _ Hp2 Hu2 Hf2 Hq2 Hr2).
  rewrite Hsame. reflexivity.
Qed.

Lemma X1_witness :
  fst (get_weather_data (fixture_alerts_net (ok_json (fixture_alerts []))) JNull
                        [request_for fixture_points_url]) =
  [request_for fixture_points_url].
Proof.
  apply (proj2 (X1_fetch_sends_one_request
                  (fixture_alerts_net (ok_json (fixture_alerts []))))).
  discriminate.
Defined.

Lemma X2_witness :
  snd (get_weather_data (fixture_alerts_net (Responds (mkResponse 204 (Some (JInt 7)))))
                        (JStr fixture_alerts_url) []) = inr (JInt 7).
Proof.
  apply (proj2 (X2_fetch_value_iff
                  (fixture_alerts_net (Responds (mkResponse 204 (Some (JInt 7)))))
                  fixture_alerts_url [] (JInt 7) ltac:(discriminate))).
  exists (mkResponse 204 (Some (JInt 7))).
  split; [ vm_compute; reflexivity | split; [ simpl; lia | reflexivity ] ].
Defined.

Lemma X5_witness :
  snd (get_alerts fixture_float_str fixture_str_repr
         (fixture_alerts_net (ok_json (JObj [("features", JNull)])))
         "WA" []) = inr "No active alerts for this state".
Proof.
  apply (X5_get_alerts_falsy_features
           fixture_float_str fixture_str_repr
           (fixture_alerts_net (ok_json (JObj [("features", JNull)])))
           "WA" [] [("features", JNull)] JNull).
  - vm_compute. reflexivity.
  - reflexivity.
  - reflexivity.
Defined.

Lemma X6_witness :
  snd (get_alerts fixture_float_str fixture_str_repr
         (fixture_alerts_net (ok_json (JArr [JStr "features"])))
         "WA" []) = inl TypeError
  /\ snd (get_alerts fixture_float_str fixture_str_repr
            (fixture_alerts_net (ok_json (JArr [JInt 1])))
            "WA" []) = inr "Unable to fetch alerts!".
Proof.
  split.
  - apply (X6_get_alerts_payload_not_mapping
             fixture_float_str fixture_str_repr
             (fixture_alerts_net (ok_json (JArr [JStr "features"])))
             "WA" [] (JArr [JStr "features"])).
    + vm_compute. reflexivity.
    + reflexivity.
    + discriminate.
  - apply (X6_get_alerts_payload_not_mapping
             fixture_float_str fixture_str_repr
             (fixture_alerts_net (ok_json (JArr [JInt 1])))
             "WA" [] (JArr [JInt 1])).
    + vm_compute. reflexivity.
    + reflexivity.
    + discriminate.
Defined.

Lemma X8_witness :
  join block_separator
       (map (spec_alert_block fixture_float_str fixture_str_repr)
            [fixture_props_sparse]) = "Unable to fetch alerts!"
  \/ join block_separator
          (map (spec_alert_block fixture_float_str fixture_str_repr)
               [fixture_props_sparse]) = "No active alerts for this state"
  \/ exists d fs ps,
       snd (get_weather_data
              (fixture_alerts_net (ok_json (fixture_alerts [fixture_feature_sparse])))
              (JStr (alerts_url "WA")) []) = inr (JObj d)
       /\ dict_lookup "features" d = Some (JArr fs)
       /\ fs <> []
       /\ Forall2 (fun f props => feature_properties f = Some props) fs ps
       /\ join block_separator
               (map (spec_alert_block fixture_float_str fixture_str_repr)
                    [fixture_props_sparse]) =
          join block_separator
               (map (spec_alert_block fixture_float_str fixture_str_repr) ps).
Proof.
  apply (X8_get_alerts_text_inversion
           fixture_float_str fixture_str_repr
           (fixture_alerts_net (ok_json (fixture_alerts [fixture_feature_sparse])))
           "WA" []).
  vm_compute. reflexivity.
Defined.

Lemma X9_witness :
  KeyError "properties" = TypeError
  \/ KeyError "properties" = AttributeError
  \/ KeyError "properties" = KeyError "properties"
  \/ is_Exception (KeyError "properties") = false.
Proof.
  apply (X9_get_alerts_exceptions
           fixture_float_str fixture_str_repr
           (fixture_alerts_net (ok_json (fixture_alerts [fixture_feature_bare])))
           "WA" []).
  vm_compute. reflexivity.
Defined.

Lemma X11_witness :
  get_forecast fixture_float_str fixture_str_repr
    (fixture_forecast_net (ok_json (JObj [("properties", JObj [("forecast", JNull)])]))
                          (ok_json (fixture_forecast fixture_nine_periods)))
    47.5%float (-122.25)%float [] =
  ([request_for fixture_points_url], inr "No Forecast Data Found").
Proof.
  apply (X11_get_forecast_url_not_string
           fixture_float_str fixture_str_repr
           (fixture_forecast_net
              (ok_json (JObj [("properties", JObj [("forecast", JNull)])]))
              (ok_json (fixture_forecast fixture_nine_periods)))
           47.5%float (-122.25)%float [] [request_for fixture_points_url]
           (JObj [("properties", JObj [("forecast", JNull)])]) JNull).
  - vm_compute. reflexivity.
  - reflexivity.
  - discriminate.
Defined.

Lemma X12_witness :
  "" = "No Data Found"
  \/ "" = "No Forecast Data Found"
  \/ exists points u fdata props periods,
       snd (get_weather_data
              (fixture_forecast_net (ok_json fixture_points)
                                    (ok_json (fixture_forecast [])))
              (JStr (points_url fixture_float_str 47.5 (-122.25))) []) = inr points
       /\ forecast_url_of points = inr u
       /\ snd (get_weather_data
                 (fixture_forecast_net (ok_json fixture_points)
                                       (ok_json (fixture_forecast [])))
                 u ([] ++ [request_for (points_url fixture_float_str 47.5 (-122.25))])%list)
          = inr fdata
       /\ getitem fdata "properties" = inr props
       /\ getitem props "periods" = inr periods
       /\ ((periods = JStr "" /\ "" = "")
           \/ exists ps views,
                periods = JArr ps
                /\ Forall2 (fun p v => view_period p = Some v) (firstn 7 ps) views
                /\ "" = join block_separator
                             (map (spec_forecast_block fixture_float_str fixture_str_repr)
                                  views)).
Proof.
  apply (X12_get_forecast_text_inversion
           fixture_float_str fixture_str_repr
           (fixture_forecast_net (ok_json fixture_points)
                                 (ok_json (fixture_forecast [])))
           47.5%float (-122.25)%float []).
  vm_compute. reflexivity.
Defined.

Lemma X13_witness :
  snd (get_forecast fixture_float_str fixture_str_repr
         (fixture_forecast_net (ok_json fixture_points)
                               (ok_json (fixture_forecast [])))
         47.5%float (-122.25)%float []) = inr "".
Proof.
  apply (X13_get_forecast_no_periods
           fixture_float_str fixture_str_repr
           (fixture_forecast_net (ok_json fixture_points)
                                 (ok_json (fixture_forecast [])))
           47.5%float (-122.25)%float [] [request_for fixture_points_url]
           fixture_points (JStr fixture_forecast_url)
           (fixture_forecast []) (fixture_forecast_props []) (JArr [])).
  - vm_compute. reflexivity.
  - reflexivity.
  - vm_compute. reflexivity.
  - reflexivity.
  - reflexivity.
  - left. reflexivity.
Defined.

Lemma X14_witness :
  KeyError "detailedForecast" = TypeError
  \/ KeyError "detailedForecast" = SliceKeyError
  \/ (exists k, In k forecast_keys /\ KeyError "detailedForecast" = KeyError k)
  \/ is_Exception (KeyError "detailedForecast") = false.
Proof.
  apply (X14_get_forecast_exceptions
           fixture_float_str fixture_str_repr
           (fixture_forecast_net
              (ok_json fixture_points)
              (ok_json (fixture_forecast [fixture_period 1; fixture_period_short 2])))
           47.5%float (-122.25)%float []).
  vm_compute. reflexivity.
Defined.

Lemma X15_witness :
  snd (sample fixture_str_repr
         (fixture_net [("https://api.weather.gov/alerts/active",
                        Responds (mkResponse 500 (Some (fixture_alerts []))))])
         []) = sample_output fixture_str_repr (fixture_alerts [])
  /\ snd (sample fixture_str_repr
            (fixture_net [("https://api.weather.gov/alerts/active",
                           Raises TimeoutException)])
            []) = inl (Raised TimeoutException).
Proof.
  split.
  - apply (proj2 (proj2 (proj2 (X15_sample_fetch
                                  fixture_str_repr
                                  (fixture_net
                                     [("https://api.weather.gov/alerts/active",
                                       Responds (mkResponse 500 (Some (fixture_alerts []))))])
                                  [])))
                 (mkResponse 500 (Some (fixture_alerts [])))).
    + vm_compute. reflexivity.
    + reflexivity.
  - apply (proj1 (proj2 (X15_sample_fetch
                           fixture_str_repr
                           (fixture_net [("https://api.weather.gov/alerts/active",
                                          Raises TimeoutException)])
                           []))).
    vm_compute. reflexivity.
Defined.


Lemma X17_witness :
  snd (get_forecast fixture_float_str fixture_str_repr
         (fixture_forecast_net (ok_json fixture_points)
                               (ok_json (fixture_forecast fixture_nine_periods)))
         47.5%float (-122.25)%float []) =
  snd (get_forecast fixture_float_str fixture_str_repr
         (fixture_forecast_net
            (ok_json fixture_points)
            (ok_json (fixture_forecast
                        (firstn 7 fixture_nine_periods ++ [JNull; JStr "junk"])%list)))
         47.5%float (-122.25)%float [request_for fixture_alerts_url]).
Proof.
  apply (X17_get_forecast_reads_seven_periods
           fixture_float_str fixture_str_repr
           (fixture_forecast_net (ok_json fixture_points)
                                 (ok_json (fixture_forecast fixture_nine_periods)))
           (fixture_forecast_net
              (ok_json fixture_points)
              (ok_json (fixture_forecast
                          (firstn 7 fixture_nine_periods ++ [JNull; JStr "junk"])%list)))
           47.5%float (-122.25)%float
           [] [request_for fixture_points_url]
           [request_for fixture_alerts_url]
           [request_for fixture_alerts_url; request_for fixture_points_url]
           fixture_points (JStr fixture_forecast_url)
           (fixture_forecast fixture_nine_periods)
           (fixture_forecast_props fixture_nine_periods)
           fixture_points (JStr fixture_forecast_url)
           (fixture_forecast (firstn 7 fixture_nine_periods ++ [JNull; JStr "junk"])%list)
           (fixture_forecast_props
              (firstn 7 fixture_nine_periods ++ [JNull; JStr "junk"])%list)
           fixture_nine_periods
           (firstn 7 fixture_nine_periods ++ [JNull; JStr "junk"])%list).
  all: vm_compute; reflexivity.
Defined.
